(** * Report splitter of pero-mcp-server: split_broken_csv,
      read_csv_into_parts and split_file_by_keyword

    Shallow embedding of
    - [src/biz/apple/apple_csv_handler.py] (split_broken_csv,
      read_csv_into_parts), and
    - [src/clients/appstoreconnect/handlers/analytics_handler.py]
      (split_file_by_keyword),
    followed by the properties the specification states about them.

    Text is a [string]; an [ascii] stands for a code point below 256.
    Python exceptions are values of [exn], a raising computation is
    [Raise e].  The pandas table reader is an interface ([Pandas]): the
    two routines only pass it a text and keep what it returns. *)

From Stdlib Require Import String Ascii List Arith Bool Lia DecimalString.
From Stdlib Require DecimalNat DecimalFacts.
Import ListNotations.
Local Open Scope string_scope.
Local Open Scope list_scope.
Local Open Scope nat_scope.

(** ** Exceptions *)

Inductive exn : Type :=
| FileNotFoundError
| ValueError
| IndexError
| ParserError.

Inductive result (A : Type) : Type :=
| Ok (a : A)
| Raise (e : exn).

Arguments Ok {A} a.
Arguments Raise {A} e.

Definition bind {A B : Type} (r : result A) (k : A -> result B) : result B :=
  match r with
  | Ok a => k a
  | Raise e => Raise e
  end.

Notation "x <- r ;; k" := (bind r (fun x => k))
  (at level 61, r at next level, right associativity).

(** [try: body except Exception: handler]. *)
Definition try_except {A : Type} (body : result A) (handler : exn -> result A)
  : result A :=
  match body with
  | Ok a => Ok a
  | Raise e => handler e
  end.

(** ** Python primitives used by the two files *)

Module Py.

Definition tab : ascii := "009"%char.
Definition LF : ascii := "010"%char.
Definition CR : ascii := "013"%char.

(** The one-character strings ['\t'] and ['\n']. *)
Definition TAB : string := String tab EmptyString.
Definition NL : string := String LF EmptyString.

(** [str.isspace] on one character, for code points below 256:
    U+0009..U+000D, U+001C..U+0020, U+0085 and U+00A0. *)
Definition isspace (c : ascii) : bool :=
  let n := nat_of_ascii c in
  ((9 <=? n) && (n <=? 13)) || ((28 <=? n) && (n <=? 32))
  || (n =? 133) || (n =? 160).

Fixpoint lstrip (s : string) : string :=
  match s with
  | EmptyString => EmptyString
  | String c s' => if isspace c then lstrip s' else s
  end.

Fixpoint rstrip (s : string) : string :=
  match s with
  | EmptyString => EmptyString
  | String c s' =>
      match rstrip s' with
      | EmptyString => if isspace c then EmptyString else String c EmptyString
      | String _ _ as r => String c r
      end
  end.

(** [s.strip()] *)
Definition strip (s : string) : string := rstrip (lstrip s).

(** Truth value of a string: non-empty. *)
Definition truthy (s : string) : bool :=
  match s with
  | EmptyString => false
  | String _ _ => true
  end.

(** [s.startswith(p)] *)
Fixpoint startswith (s p : string) : bool :=
  match p with
  | EmptyString => true
  | String a p' =>
      match s with
      | EmptyString => false
      | String b s' => Ascii.eqb a b && startswith s' p'
      end
  end.

(** The pieces of [s] between the characters satisfying [sep]; always at
    least one piece. *)
Fixpoint split_by (sep : ascii -> bool) (s : string) : list string :=
  match s with
  | EmptyString => [EmptyString]
  | String c s' =>
      if sep c then EmptyString :: split_by sep s'
      else match split_by sep s' with
           | piece :: pieces => String c piece :: pieces
           | [] => [String c EmptyString]
           end
  end.

(** [s.split(c)] for a separator of one character [c]. *)
Definition split_char (c : ascii) (s : string) : list string :=
  split_by (Ascii.eqb c) s.

(** [sep.join(l)] *)
Definition join (sep : string) (l : list string) : string :=
  String.concat sep l.

(** [s[n:]] on a string. *)
Fixpoint drop (n : nat) (s : string) : string :=
  match n, s with
  | O, _ => s
  | S n', String _ s' => drop n' s'
  | S _, EmptyString => EmptyString
  end.

(** [kw in s] *)
Fixpoint contains (s kw : string) : bool :=
  startswith s kw
  || match s with
     | EmptyString => false
     | String _ s' => contains s' kw
     end.

(** The text before and after the leftmost occurrence of [sep] in [s]. *)
Fixpoint cut (s sep : string) : option (string * string) :=
  if startswith s sep then Some (EmptyString, drop (String.length sep) s)
  else match s with
       | EmptyString => None
       | String c s' =>
           match cut s' sep with
           | Some (before, after) => Some (String c before, after)
           | None => None
           end
       end.

(** [s.split(sep, 1)]: ValueError on the empty separator, else at most one
    cut, at the leftmost occurrence. *)
Definition split_once (s sep : string) : result (list string) :=
  if truthy sep then
    match cut s sep with
    | Some (before, after) => Ok [before; after]
    | None => Ok [s]
    end
  else Raise ValueError.

(** [l[i]] for [i >= 0]. *)
Definition getitem {A : Type} (l : list A) (i : nat) : result A :=
  match nth_error l i with
  | Some x => Ok x
  | None => Raise IndexError
  end.

(** [l[a:b]] and [l[a:]] for [a, b >= 0]. *)
Definition slice {A : Type} (l : list A) (a b : nat) : list A :=
  firstn (b - a) (skipn a l).

Definition slice_from {A : Type} (l : list A) (a : nat) : list A :=
  skipn a l.

(** [str(n)] for [n >= 0]. *)
Definition str (n : nat) : string :=
  NilZero.string_of_uint (Nat.to_uint n).

(** Iterating a text file opened with universal newlines cuts it at
    ['\n'], ['\r'] and ['\r\n'].  [file_lines] gives the pieces without
    their terminators; it has an empty piece between ['\r'] and ['\n'] and
    after a final terminator, where Python has none.  Both are whitespace
    only, and every use below strips the pieces and drops the empty ones. *)
Definition is_newline (c : ascii) : bool := Ascii.eqb c LF || Ascii.eqb c CR.

Definition file_lines (content : string) : list string :=
  split_by is_newline content.

End Py.

Import Py.

(** ** The pandas interface

    [pd.read_csv(StringIO(content), sep='\t')], [pd.DataFrame()] and
    [len(df)].  pandas is a dependency, not code of the repository. *)

Class Pandas : Type := {
  DataFrame : Type;
  read_csv : string -> result DataFrame;
  empty_frame : DataFrame;
  frame_len : DataFrame -> nat
}.

(** ** src/biz/apple/apple_csv_handler.py *)

Definition Total_Rows : string := "Total_Rows".

(** [[line.strip() for line in f if line.strip()]] *)
Definition read_lines (content : string) : list string :=
  map strip (filter (fun line => truthy (strip line)) (file_lines content)).

(** The loop over [enumerate(lines)] that stops at the first line starting
    with ['Total_Rows']. *)
Fixpoint find_total_row (i : nat) (lines : list string) : option nat :=
  match lines with
  | [] => None
  | line :: rest =>
      if startswith line Total_Rows then Some i
      else find_total_row (S i) rest
  end.

(** [header + '\n' + '\n'.join(data)] *)
Definition part_content (header : string) (data : list string) : string :=
  (header ++ NL ++ join NL data)%string.

Section AppleCsvHandler.

Context {P : Pandas}.

Definition parts : Type := (DataFrame * string * DataFrame)%type.

(** [split_broken_csv]; the argument is the decoded content of the file. *)
Definition split_broken_csv (content : string) : result parts :=
  let lines := read_lines content in
  match find_total_row 0 lines with
  | None => Raise ValueError
  | Some total_row_index =>
      part1_header <- getitem lines 0 ;;
      let part1_data := slice lines 1 total_row_index in
      df_part1 <- read_csv (part_content part1_header part1_data) ;;
      sentinel <- getitem lines total_row_index ;;
      total_rows <- getitem (split_char tab sentinel) 1 ;;
      part2_header <- getitem lines (total_row_index + 1) ;;
      let part2_data := slice_from lines (total_row_index + 2) in
      df_part2 <- read_csv (part_content part2_header part2_data) ;;
      Ok (df_part1, total_rows, df_part2)
  end.

(** [read_csv_into_parts], the branch [if total_row_index is None]. *)
Definition split_at_mid_point (lines : list string) : result parts :=
  let mid_point := length lines / 2 in
  if 0 <? mid_point then
    part1_header <- getitem lines 0 ;;
    let part1_data := slice lines 1 mid_point in
    df_part1 <- read_csv (part_content part1_header part1_data) ;;
    let total_rows := str (frame_len df_part1) in
    if mid_point <? length lines then
      part2_header <- getitem lines mid_point ;;
      let part2_data := slice_from lines (mid_point + 1) in
      df_part2 <- read_csv (part_content part2_header part2_data) ;;
      Ok (df_part1, total_rows, df_part2)
    else
      Ok (df_part1, total_rows, empty_frame)
  else
    Ok (empty_frame, "0", empty_frame).

(** [read_csv_into_parts], the [else] branch: the marker line was found. *)
Definition split_at_total_row (lines : list string) (total_row_index : nat)
  : result parts :=
  part1_header <- getitem lines 0 ;;
  let part1_data := slice lines 1 total_row_index in
  df_part1 <- read_csv (part_content part1_header part1_data) ;;
  sentinel <- getitem lines total_row_index ;;
  total_rows <- getitem (split_char tab sentinel) 1 ;;
  if total_row_index + 1 <? length lines then
    part2_header <- getitem lines (total_row_index + 1) ;;
    let part2_data :=
      if total_row_index + 2 <? length lines
      then slice_from lines (total_row_index + 2) else [] in
    df_part2 <- read_csv (part_content part2_header part2_data) ;;
    Ok (df_part1, total_rows, df_part2)
  else
    Ok (df_part1, total_rows, empty_frame).

(** The [try] block of [read_csv_into_parts]. *)
Definition read_csv_into_parts_body (content : string) : result parts :=
  let lines := read_lines content in
  match find_total_row 0 lines with
  | None => split_at_mid_point lines
  | Some total_row_index => split_at_total_row lines total_row_index
  end.

(** [read_csv_into_parts] on the decoded content of an existing [.csv] or
    [.txt] file: every exception of the [try] block is turned into
    ValueError.  (The checks of the path come before the block and do not
    look at the content.) *)
Definition read_csv_into_parts (content : string) : result parts :=
  try_except (read_csv_into_parts_body content) (fun _ => Raise ValueError).

End AppleCsvHandler.

(** ** src/clients/appstoreconnect/handlers/analytics_handler.py *)

Section AnalyticsHandler.

(** [os.path.abspath] *)
Variable abspath : string -> string.

(** The [try] block of [split_file_by_keyword] up to the two writes:
    [None] is the early [return None, None], [Some (prefix, suffix)] what
    is to be written.  [input] is the decoded content of the input file,
    [None] when the file does not exist. *)
Definition split_file_by_keyword_body (input : option string)
    (keyword : string) : result (option (string * string)) :=
  content <- match input with
             | Some c => Ok c
             | None => Raise FileNotFoundError
             end ;;
  if negb (contains content keyword) then Ok None
  else
    parts <- split_once content keyword ;;
    prefix <- getitem parts 0 ;;
    suffix <- getitem parts 1 ;;
    Ok (Some (prefix, suffix)).

(** [with open(path, 'w', encoding=encoding) as f: f.write(text)], after
    the writes of [written]: [Ok tt] when it completes, else the exception
    it raises (an empty path, a missing directory, a text the encoding
    cannot hold, ...). *)
Variable write_text :
  list (string * string) -> string -> string -> result unit.

(** [split_file_by_keyword]: the files written, in order, as (path,
    content), and the returned pair, [None] for [(None, None)].  The two
    writes are inside the [try] block: when one of them raises, the
    handler returns [(None, None)] and the file written before stays.
    What a write that raises leaves of its own file is not recorded. *)
Definition split_file_by_keyword (input : option string)
    (keyword output1_path output2_path : string)
  : list (string * string) * option (string * string) :=
  match split_file_by_keyword_body input keyword with
  | Ok (Some (prefix, suffix)) =>
      match write_text [] output1_path prefix with
      | Ok _ =>
          match write_text [(output1_path, prefix)] output2_path suffix with
          | Ok _ =>
              ([(output1_path, prefix); (output2_path, suffix)],
               Some (abspath output1_path, abspath output2_path))
          | Raise _ => ([(output1_path, prefix)], None)
          end
      | Raise _ => ([], None)
      end
  | Ok None => ([], None)
  | Raise _ => ([], None)
  end.

End AnalyticsHandler.

(** ** Tables of the specification *)

(** Modelled from the spec: a table, which the repository leaves to
    pandas: its column names and its records, each an ordered sequence of
    (column name, value). *)
Record Table : Type := {
  columns : list string;
  rows : list (list (string * string))
}.

(** Modelled from the spec: the empty table, without header and without
    rows. *)
Definition empty_table : Table := {| columns := []; rows := [] |}.

(** Modelled from the spec: the table parser, which is pandas and not part
    of the repository.  Header and data lines are split on the tab
    character and every data line is paired with the header by positional
    index; the pairing stops at the shorter of the two. *)
Definition record (header : list string) (line : string)
  : list (string * string) :=
  combine header (split_char tab line).

(** Modelled from the spec: the table of a header line and its data
    lines, one record per data line, in order. *)
Definition tokenize (header : string) (data : list string) : Table :=
  {| columns := split_char tab header;
     rows := map (record (split_char tab header)) data |}.

(** Modelled from the spec: the table parser on the text that the two
    routines build, [header + '\n' + '\n'.join(data)]: the first
    non-empty line is the header, the other non-empty lines are the data;
    a text without a line has no columns to parse. *)
Definition read_table (content : string) : result Table :=
  match filter truthy (split_char LF content) with
  | [] => Raise ParserError
  | header :: data => Ok (tokenize header data)
  end.

(** Modelled from the spec: its tables as the frames of the interface;
    the empty frame has no header and no rows, the length of a frame is
    its number of records. *)
#[export] Instance SpecTables : Pandas := {|
  DataFrame := Table;
  read_csv := read_table;
  empty_frame := empty_table;
  frame_len := fun t => length (rows t)
|}.

(** Modelled from the spec: a table re-serialized with tabs, header line
    first; the empty table has no line. *)
Definition table_lines (t : Table) : list string :=
  match columns t with
  | [] => []
  | _ :: _ =>
      join TAB (columns t) :: map (fun r => join TAB (map snd r)) (rows t)
  end.

(** Modelled from the spec: the reconstituted concatenation of first
    table, sentinel line and second table. *)
Definition reconstitute (r : Table * string * Table) : string :=
  let '(first_table, sentinel_value, second_table) := r in
  join NL (table_lines first_table
           ++ [(Total_Rows ++ TAB ++ sentinel_value)%string]
           ++ table_lines second_table).

(** ** Vocabulary of the properties *)

(** [s] is the index of the first line that begins with the label. *)
Definition first_sentinel (lines : list string) (s : nat) : Prop :=
  (exists line, nth_error lines s = Some line
                /\ startswith line Total_Rows = true)
  /\ forall j line, j < s -> nth_error lines j = Some line ->
                    startswith line Total_Rows = false.

Definition no_sentinel (lines : list string) : Prop :=
  forall line, In line lines -> startswith line Total_Rows = false.

(** Line [i], the empty text outside the list. *)
Definition line_at (lines : list string) (i : nat) : string :=
  nth i lines EmptyString.

(** The second tab-separated field of a line, if it has one. *)
Definition second_field (line : string) : option string :=
  nth_error (split_char tab line) 1.

(** [kw] occurs in [text]. *)
Definition occurs (kw text : string) : Prop :=
  exists before after, text = (before ++ kw ++ after)%string.

(** Some character of [s] satisfies [p]. *)
Fixpoint any_char (p : ascii -> bool) (s : string) : bool :=
  match s with
  | EmptyString => false
  | String c s' => p c || any_char p s'
  end.

(** What [read_lines] yields: non-empty, stripped, on one line. *)
Definition clean (line : string) : Prop :=
  truthy line = true /\ strip line = line
  /\ any_char is_newline line = false.

(** No data line has more fields than the header line before it. *)
Definition fits_header (table : list string) : Prop :=
  match table with
  | [] => True
  | header :: data =>
      Forall (fun line => length (split_char tab line)
                          <= length (split_char tab header)) data
  end.

(** Scenario A of the specification. *)
Definition scenario_A : string :=
  join NL [("H1" ++ TAB ++ "H2")%string; ("a" ++ TAB ++ "b")%string;
           ("Total_Rows" ++ TAB ++ "2")%string;
           ("H3" ++ TAB ++ "H4")%string; ("c" ++ TAB ++ "d")%string].

(** Scenario B of the specification: four lines, no marker line. *)
Definition scenario_B : string :=
  join NL ["h1"; "a"; "h2"; "b"]%string.

(** A header and a marker line without a second field. *)
Definition marker_without_value : string :=
  join NL ["H"; "Total_Rows"; "X"]%string.

(** A header and, as last line, a marker line. *)
Definition marker_last : string :=
  join NL ["H"%string; ("Total_Rows" ++ TAB ++ "7")%string].

(** Blank lines only. *)
Definition blank_lines : string := (NL ++ " " ++ NL)%string.

(** The marker line comes first. *)
Definition marker_first : string :=
  join NL [("Total_Rows" ++ TAB ++ "2")%string;
           ("H3" ++ TAB ++ "H4")%string; ("c" ++ TAB ++ "d")%string].

(** A data line with more fields than its header. *)
Definition wide_row : string :=
  join NL [("H1" ++ TAB ++ "H2")%string; ("a" ++ TAB ++ TAB ++ "c")%string;
           ("Total_Rows" ++ TAB ++ "1")%string].

(** A marker line whose second field is empty. *)
Definition empty_value : string :=
  join NL ["H"%string; ("Total_Rows" ++ TAB ++ TAB ++ "x")%string].

(** A header and, as last line, a marker line without a second field. *)
Definition marker_last_without_value : string :=
  join NL ["H"; "Total_Rows"]%string.

(** Six lines without marker line; the third has one field more than the
    two before it. *)
Definition ragged_rows : string :=
  join NL [("H1" ++ TAB ++ "H2")%string; ("a" ++ TAB ++ "b")%string;
           ("c" ++ TAB ++ "d" ++ TAB ++ "e")%string;
           ("H3" ++ TAB ++ "H4")%string; ("x" ++ TAB ++ "y")%string;
           ("z" ++ TAB ++ "w")%string].

(** Twenty-four lines without marker line. *)
Definition twenty_four_lines : string :=
  join NL (repeat "x"%string 24).

(** An output path that cannot be opened: [open('', 'w')] raises
    FileNotFoundError. *)
Definition write_unless_empty_path (written : list (string * string))
    (path text : string) : result unit :=
  if truthy path then Ok tt else Raise FileNotFoundError.

(** Modelled from the spec: the table parser under the other policy that
    section 7 leaves open for a row whose number of fields is not that of
    the header: it is surfaced as an error (RowArityMismatchError) instead
    of being padded or truncated.  pandas raises its ParserError on a line
    with more fields than the lines before it, as in [ragged_rows]. *)
Definition read_table_strict (content : string) : result Table :=
  match filter truthy (split_char LF content) with
  | [] => Raise ParserError
  | header :: data =>
      if forallb (fun line => length (split_char tab line)
                              =? length (split_char tab header)) data
      then Ok (tokenize header data)
      else Raise ParserError
  end.

(** Modelled from the spec: the tables of the specification with that
    parser as the frames of the interface. *)
Definition StrictTables : Pandas := {|
  DataFrame := Table;
  read_csv := read_table_strict;
  empty_frame := empty_table;
  frame_len := fun t => length (rows t)
|}.

(** ** remove_total_rows_line (analytics_handler.py, finance_handler.py)

    The two regular expressions are written out as the scans they stand
    for, on code points below 256. *)

(** [\d]: the decimal digits. *)
Definition isdigit (c : ascii) : bool :=
  let n := nat_of_ascii c in (48 <=? n) && (n <=? 57).

(** [c.lower()] on one character: A-Z, and U+00C0..U+00DE but U+00D7. *)
Definition lower (c : ascii) : ascii :=
  let n := nat_of_ascii c in
  if ((65 <=? n) && (n <=? 90))
     || ((192 <=? n) && (n <=? 222) && negb (n =? 215))
  then ascii_of_nat (n + 32) else c.

(** A literal of the pattern under IGNORECASE: [s] without a prefix that
    equals [literal] up to case, if it has one. *)
Fixpoint skip_ignorecase (literal s : string) : option string :=
  match literal with
  | EmptyString => Some s
  | String a literal' =>
      match s with
      | EmptyString => None
      | String b s' =>
          if Ascii.eqb (lower b) (lower a) then skip_ignorecase literal' s'
          else None
      end
  end.

(** [q*], greedy: [s] without its longest prefix of characters in [q]. *)
Fixpoint skip_while (q : ascii -> bool) (s : string) : string :=
  match s with
  | EmptyString => EmptyString
  | String c s' => if q c then skip_while q s' else s
  end.

(** [q+], greedy. *)
Definition one_or_more (q : ascii -> bool) (s : string) : option string :=
  match s with
  | EmptyString => None
  | String c _ => if q c then Some (skip_while q s) else None
  end.

(** The suffix of [s] that starts at the last line feed of its leading run
    of whitespace, if that run has one. *)
Fixpoint last_newline_in_space (s : string) : option string :=
  match s with
  | EmptyString => None
  | String c s' =>
      if isspace c then
        match last_newline_in_space s' with
        | Some rest => Some rest
        | None => if Ascii.eqb c LF then Some s else None
        end
      else None
  end.

(** [\s*$] under MULTILINE, where [$] holds at the end of the text and
    before a line feed: the whitespace is taken to the end of the text, or
    else up to the last line feed of the run; what is left of [s]. *)
Definition line_end (s : string) : option string :=
  match skip_while isspace s with
  | EmptyString => Some EmptyString
  | String _ _ => last_newline_in_space s
  end.

(** [\s*Total_Rows\s+\d+\s*$] at the start of [s]: what is left of [s]
    after the match.  (No shorter repetition can make the pattern match
    where the longest one fails, but for the last [\s*].) *)
Definition match_total_rows (s : string) : option string :=
  match skip_ignorecase Total_Rows (skip_while isspace s) with
  | None => None
  | Some after_label =>
      match one_or_more isspace after_label with
      | None => None
      | Some number =>
          match one_or_more isdigit number with
          | None => None
          | Some after_number => line_end after_number
          end
      end
  end.

(** [pattern.sub('', s)]: the text is scanned from the left; [bol] says
    that the scan is at the start of the text or behind a line feed, where
    [^] holds; where the pattern matches, the match is left out, [skip]
    counting the characters of it still to pass. *)
Fixpoint sub_total_rows (skip : nat) (bol : bool) (s : string) : string :=
  match s with
  | EmptyString => EmptyString
  | String c s' =>
      let bol' := Ascii.eqb c LF in
      match skip with
      | S skip' => sub_total_rows skip' bol' s'
      | O =>
          match (if bol then match_total_rows s else None) with
          | Some rest =>
              sub_total_rows (String.length s - String.length rest - 1) bol' s'
          | None => String c (sub_total_rows 0 bol' s')
          end
      end
  end.

(** [re.sub(r'\n+', '\n', s)]: of every run of line feeds the last one is
    kept. *)
Fixpoint collapse_newlines (s : string) : string :=
  match s with
  | EmptyString => EmptyString
  | String c s' =>
      if Ascii.eqb c LF && startswith s' NL then collapse_newlines s'
      else String c (collapse_newlines s')
  end.

(** [remove_total_rows_line] *)
Definition remove_total_rows_line (content : string) : string :=
  let cleaned := sub_total_rows 0 true content in
  strip (collapse_newlines cleaned).

(** [literal] occurs in [s] up to case. *)
Fixpoint contains_ignorecase (s literal : string) : bool :=
  match skip_ignorecase literal s with
  | Some _ => true
  | None =>
      match s with
      | EmptyString => false
      | String _ s' => contains_ignorecase s' literal
      end
  end.

(** A line 'Total_Rows', in any case, whitespace, digits. *)
Definition marker_line (label space digits : string) : string :=
  (label ++ space ++ digits)%string.

(** Every character of [s] is in [q]. *)
Definition all_chars (q : ascii -> bool) (s : string) : Prop :=
  any_char (fun c => negb (q c)) s = false.

(** A line as [read_lines] yields them that does not start with the label,
    in any case. *)
Definition plain_line (line : string) : Prop :=
  clean line /\ skip_ignorecase Total_Rows line = None.

(** The value of a decimal digit, and of a string of decimal digits read
    from the left, [acc] being the value of the digits read before. *)
Definition digit_value (c : ascii) : nat := nat_of_ascii c - 48.

Fixpoint decimal_value (acc : nat) (s : string) : nat :=
  match s with
  | EmptyString => acc
  | String c s' => decimal_value (10 * acc + digit_value c) s'
  end.

(** [s] is the decimal string of [n]: one or more decimal digits, without
    a leading zero but for "0" itself, of value [n]. *)
Definition decimal_string (n : nat) (s : string) : Prop :=
  s <> EmptyString
  /\ all_chars isdigit s
  /\ (startswith s "0" = true -> s = "0"%string)
  /\ decimal_value 0 s = n.

(** ** The functions of apple_csv_handler.py on a path *)

(** [s.lower()] *)
Fixpoint str_lower (s : string) : string :=
  match s with
  | EmptyString => EmptyString
  | String c s' => String (lower c) (str_lower s')
  end.

Section Files.

Context {P : Pandas}.

(** [os.path.exists(path)]; [os.path.splitext(path)[1]]; the decoded
    content of the file that [open(path, 'r', encoding='utf-8')] gives, or
    the exception of opening or decoding it; and
    [pd.read_csv(path, encoding='utf-8')], with [sep=...] when one is
    given. *)
Variable path_exists : string -> bool.
Variable splitext_ext : string -> string.
Variable read_text : string -> result string.
Variable read_csv_path : option string -> string -> result DataFrame.

(** [ext in ['.csv', '.txt']] *)
Definition supported_ext (ext : string) : bool :=
  existsb (String.eqb ext) [".csv"; ".txt"]%string.

(** [read_csv_or_txt_file] *)
Definition read_csv_or_txt_file (file_path : string) : result DataFrame :=
  if negb (path_exists file_path) then Raise FileNotFoundError
  else
    let ext := str_lower (splitext_ext file_path) in
    if negb (supported_ext ext) then Raise ValueError
    else
      try_except (read_csv_path None file_path)
        (fun _ =>
           try_except (read_csv_path (Some TAB) file_path)
             (fun _ =>
                try_except (read_csv_path (Some ","%string) file_path)
                  (fun _ => Raise ValueError))).

(** [read_csv_into_parts] on a path: the two checks, then the [try] block,
    which opens the file. *)
Definition read_csv_into_parts_path (file_path : string) : result parts :=
  if negb (path_exists file_path) then Raise FileNotFoundError
  else
    let ext := str_lower (splitext_ext file_path) in
    if negb (supported_ext ext) then Raise ValueError
    else
      try_except (content <- read_text file_path ;;
                  read_csv_into_parts_body content)
                 (fun _ => Raise ValueError).

End Files.

(** ** src/biz/pandas/compute_row_hash.py *)

Section RowHash.

(** The values of a frame, [pd.isna(val)], [str(val)], and
    [hashlib.new(hash_algorithm, text.encode("utf-8")).hexdigest()]. *)
Variable cell : Type.
Variable isna : cell -> bool.
Variable to_str : cell -> string.
Variable hexdigest : string -> string -> string.

(** [calculate_hash], the function that [compute_row_hash] applies to
    every row; [row col] is [row[col]]. *)
Definition calculate_hash (target_cols : list string)
    (sep hash_algorithm : string) (row : string -> cell) : string :=
  let values :=
    map (fun col => let val := row col in
                    if isna val then "NaN"%string else to_str val)
        target_cols in
  let combined_str := join sep values in
  hexdigest hash_algorithm combined_str.

End RowHash.

(** * Properties *)

(** [first_sentinel] on a given list of lines, by running through the
    lines before the index. *)
Ltac first_sentinel_by_computation :=
  split;
  [ eexists; split; reflexivity
  | let j := fresh "j" in
    let line := fresh "line" in
    let Hj := fresh "Hj" in
    let Hnth := fresh "Hnth" in
    intros j line Hj Hnth; vm_compute in Hnth;
    repeat (destruct j as [|j];
            [inversion Hnth; reflexivity | try lia]) ].

(** ** The scan for the marker line *)

Lemma first_sentinel_head line rest :
  startswith line Total_Rows = true -> first_sentinel (line :: rest) 0.
Proof.
  intros H. split.
  - exists line. split; [reflexivity | exact H].
  - intros j l Hj. lia.
Qed.

Lemma first_sentinel_tail line rest s :
  startswith line Total_Rows = false ->
  first_sentinel rest s -> first_sentinel (line :: rest) (S s).
Proof.
  intros Hline [[l [Hl Hs]] Hbefore]. split.
  - exists l. split; assumption.
  - intros [|j] l' Hj Hnth; simpl in Hnth.
    + inversion Hnth; subst; exact Hline.
    + apply (Hbefore j); [lia | exact Hnth].
Qed.

Lemma first_sentinel_inv line rest s :
  first_sentinel (line :: rest) s ->
  (s = 0 /\ startswith line Total_Rows = true)
  \/ (exists s', s = S s' /\ startswith line Total_Rows = false
                 /\ first_sentinel rest s').
Proof.
  intros [[l [Hl Hs]] Hbefore]. destruct s as [|s'].
  - left. simpl in Hl. inversion Hl; subst. split; [reflexivity | exact Hs].
  - right. exists s'. split; [reflexivity|]. split.
    + apply (Hbefore 0); [lia | reflexivity].
    + split.
      * exists l. split; assumption.
      * intros j l' Hj Hnth. apply (Hbefore (S j)); [lia | exact Hnth].
Qed.

Lemma find_total_row_complete lines : forall i s,
  first_sentinel lines s -> find_total_row i lines = Some (i + s).
Proof.
  induction lines as [|line rest IH]; intros i s Hs.
  - destruct Hs as [[l [Hl _]] _]. destruct s; discriminate Hl.
  - destruct (first_sentinel_inv _ _ _ Hs) as [[-> Hline] | [s' [-> [Hline Hs']]]];
      simpl; rewrite Hline.
    + f_equal. lia.
    + rewrite (IH (S i) s' Hs'). f_equal. lia.
Qed.

Lemma find_total_row_sound lines : forall i k,
  find_total_row i lines = Some k ->
  exists s, k = i + s /\ first_sentinel lines s.
Proof.
  induction lines as [|line rest IH]; intros i k Hfind; simpl in Hfind.
  - discriminate.
  - destruct (startswith line Total_Rows) eqn:Hline.
    + inversion Hfind; subst. exists 0. split; [lia|].
      now apply first_sentinel_head.
    + destruct (IH _ _ Hfind) as [s [-> Hs]]. exists (S s). split; [lia|].
      now apply first_sentinel_tail.
Qed.

Lemma find_total_row_none lines : forall i,
  no_sentinel lines <-> find_total_row i lines = None.
Proof.
  induction lines as [|line rest IH]; intros i; simpl.
  - split; [reflexivity | intros _ l []].
  - split.
    + intros Hno. rewrite (Hno line (or_introl eq_refl)).
      apply IH. intros l Hl. apply Hno. now right.
    + destruct (startswith line Total_Rows) eqn:Hline; [discriminate|].
      intros Hfind l [<- | Hl]; [exact Hline|].
      revert l Hl. apply (IH (S i)). exact Hfind.
Qed.

Lemma first_sentinel_lt lines s : first_sentinel lines s -> s < length lines.
Proof.
  intros [[l [Hl _]] _]. apply nth_error_Some. congruence.
Qed.

(** ** Indexing *)

Lemma getitem_line_at lines i :
  i < length lines -> getitem lines i = Ok (line_at lines i).
Proof.
  intros Hi. unfold getitem, line_at.
  now rewrite (nth_error_nth' lines EmptyString Hi).
Qed.

Lemma getitem_out_of_range {A : Type} (l : list A) i :
  length l <= i -> getitem l i = Raise IndexError.
Proof.
  intros Hi. unfold getitem.
  now rewrite (proj2 (nth_error_None l i) Hi).
Qed.

Lemma second_field_getitem line value :
  second_field line = Some value ->
  getitem (split_char tab line) 1 = Ok value.
Proof. unfold second_field, getitem. now intros ->. Qed.

Lemma second_field_missing line :
  length (split_char tab line) < 2 ->
  getitem (split_char tab line) 1 = Raise IndexError.
Proof. intros H. apply getitem_out_of_range. lia. Qed.

(** ** Splitting and joining *)

Section SplitBy.

Variable p : ascii -> bool.

Lemma split_by_not_nil s : split_by p s <> [].
Proof.
  destruct s as [|c s]; simpl; [discriminate|].
  destruct (p c); [discriminate|].
  destruct (split_by p s); discriminate.
Qed.

Lemma split_by_free s :
  Forall (fun piece => any_char p piece = false) (split_by p s).
Proof.
  induction s as [|c s IH]; simpl.
  - repeat constructor.
  - destruct (p c) eqn:Hc.
    + constructor; [reflexivity | exact IH].
    + destruct (split_by p s) as [|piece pieces].
      * repeat constructor. simpl. now rewrite Hc.
      * inversion IH; subst. constructor; [|assumption].
        simpl. now rewrite Hc.
Qed.

Lemma split_by_keeps (q : ascii -> bool) s :
  any_char q s = false ->
  Forall (fun piece => any_char q piece = false) (split_by p s).
Proof.
  induction s as [|c s IH]; simpl; intros Hq.
  - repeat constructor.
  - apply orb_false_iff in Hq. destruct Hq as [Hc Hs].
    specialize (IH Hs). destruct (p c).
    + constructor; [reflexivity | exact IH].
    + destruct (split_by p s) as [|piece pieces].
      * repeat constructor. simpl. now rewrite Hc.
      * inversion IH; subst. constructor; [|assumption].
        simpl. rewrite Hc. assumption.
Qed.

Lemma split_by_whole s : any_char p s = false -> split_by p s = [s].
Proof.
  induction s as [|c s IH]; simpl; intros Hfree; [reflexivity|].
  apply orb_false_iff in Hfree. destruct Hfree as [Hc Hs].
  now rewrite Hc, (IH Hs).
Qed.

Lemma split_by_app_sep h c rest :
  any_char p h = false -> p c = true ->
  split_by p (h ++ String c rest) = h :: split_by p rest.
Proof.
  intros Hfree Hc. induction h as [|a h IH]; simpl.
  - now rewrite Hc.
  - simpl in Hfree. apply orb_false_iff in Hfree. destruct Hfree as [Ha Hh].
    now rewrite Ha, (IH Hh).
Qed.

Lemma split_by_join c pieces :
  p c = true -> pieces <> [] ->
  Forall (fun piece => any_char p piece = false) pieces ->
  split_by p (join (String c EmptyString) pieces) = pieces.
Proof.
  intros Hc. unfold join.
  induction pieces as [|x rest IH]; intros Hne Hfree; [congruence|].
  inversion Hfree as [|? ? Hx Hrest]; subst.
  destruct rest as [|y rest].
  - simpl. now apply split_by_whole.
  - change (String.concat (String c EmptyString) (x :: y :: rest))
      with (x ++ String c (String.concat (String c EmptyString) (y :: rest)))%string.
    rewrite split_by_app_sep by assumption. f_equal.
    apply IH; [discriminate | assumption].
Qed.

End SplitBy.

Lemma join_split_char c s : join (String c EmptyString) (split_char c s) = s.
Proof.
  unfold join, split_char. induction s as [|a s IH]; simpl; [reflexivity|].
  pose proof (split_by_not_nil (Ascii.eqb c) s) as Hne.
  destruct (Ascii.eqb c a) eqn:Hca.
  - apply Ascii.eqb_eq in Hca. subst a.
    destruct (split_by (Ascii.eqb c) s) as [|x xs]; [congruence|].
    change (String c (String.concat (String c EmptyString) (x :: xs))
            = String c s).
    now rewrite IH.
  - destruct (split_by (Ascii.eqb c) s) as [|x xs]; [congruence|].
    destruct xs as [|y ys].
    + simpl in *. now rewrite IH.
    + change (String a (String.concat (String c EmptyString) (x :: y :: ys))
              = String a s).
      now rewrite IH.
Qed.

Lemma any_char_weaken (p q : ascii -> bool) s :
  (forall c, p c = true -> q c = true) ->
  any_char q s = false -> any_char p s = false.
Proof.
  intros Hpq. induction s as [|c s IH]; simpl; intros Hq; [reflexivity|].
  apply orb_false_iff in Hq. destruct Hq as [Hc Hs].
  rewrite (IH Hs), orb_false_r.
  destruct (p c) eqn:Hp; [|reflexivity].
  rewrite (Hpq c Hp) in Hc. discriminate.
Qed.

Lemma any_char_app p s t :
  any_char p (s ++ t) = any_char p s || any_char p t.
Proof.
  induction s as [|c s IH]; simpl; [reflexivity|].
  now rewrite IH, orb_assoc.
Qed.

Lemma map_snd_combine {A B : Type} (l : list A) : forall (l' : list B),
  length l' <= length l -> map snd (combine l l') = l'.
Proof.
  induction l as [|a l IH]; intros [|b l'] Hlen; simpl in *;
    try reflexivity; try lia.
  f_equal. apply IH. lia.
Qed.

(** ** Stripping *)

Lemma rstrip_cons c s :
  rstrip (String c s)
  = match rstrip s with
    | EmptyString => if isspace c then EmptyString else String c EmptyString
    | String _ _ as r => String c r
    end.
Proof. reflexivity. Qed.

Lemma rstrip_idempotent s : rstrip (rstrip s) = rstrip s.
Proof.
  induction s as [|c s IH]; [reflexivity|].
  rewrite rstrip_cons. destruct (rstrip s) as [|a r] eqn:Hr.
  - destruct (isspace c) eqn:Hc; [reflexivity|].
    rewrite rstrip_cons. simpl. now rewrite Hc.
  - rewrite rstrip_cons. now rewrite IH.
Qed.

Lemma rstrip_keeps_head c s :
  isspace c = false -> exists r, rstrip (String c s) = String c r.
Proof.
  intros Hc. rewrite rstrip_cons. destruct (rstrip s) as [|a r].
  - rewrite Hc. now exists EmptyString.
  - now exists (String a r).
Qed.

Lemma lstrip_cases s :
  lstrip s = EmptyString
  \/ exists c s', lstrip s = String c s' /\ isspace c = false.
Proof.
  induction s as [|c s IH]; simpl; [now left|].
  destruct (isspace c) eqn:Hc; [exact IH|].
  right. now exists c, s.
Qed.

Lemma strip_idempotent s : strip (strip s) = strip s.
Proof.
  unfold strip. destruct (lstrip_cases s) as [-> | [c [s' [-> Hc]]]];
    [reflexivity|].
  destruct (rstrip_keeps_head c s' Hc) as [r Hr]. rewrite Hr.
  simpl lstrip. rewrite Hc, <- Hr. apply rstrip_idempotent.
Qed.

Lemma lstrip_keeps (q : ascii -> bool) s :
  any_char q s = false -> any_char q (lstrip s) = false.
Proof.
  induction s as [|c s IH]; simpl; intros Hq; [reflexivity|].
  destruct (isspace c); [|exact Hq].
  apply IH. apply orb_false_iff in Hq. tauto.
Qed.

Lemma rstrip_keeps (q : ascii -> bool) s :
  any_char q s = false -> any_char q (rstrip s) = false.
Proof.
  induction s as [|c s IH]; intros Hq; [reflexivity|].
  simpl in Hq. apply orb_false_iff in Hq. destruct Hq as [Hc Hs].
  specialize (IH Hs). rewrite rstrip_cons.
  destruct (rstrip s) as [|a r].
  - destruct (isspace c); simpl; [reflexivity | now rewrite Hc].
  - simpl in *. now rewrite Hc.
Qed.

Lemma strip_keeps (q : ascii -> bool) s :
  any_char q s = false -> any_char q (strip s) = false.
Proof. intros Hq. unfold strip. now apply rstrip_keeps, lstrip_keeps. Qed.

Lemma rstrip_app_nonempty s t :
  t <> EmptyString -> rstrip t = t -> rstrip (s ++ t) = (s ++ t)%string.
Proof.
  intros Hne Ht. induction s as [|c s IH]; simpl; [exact Ht|].
  rewrite IH. destruct (s ++ t)%string as [|a r] eqn:Hst; [|reflexivity].
  destruct s; simpl in Hst; [congruence | discriminate].
Qed.

(** ** The lines of a file *)

Lemma read_lines_clean content : Forall clean (read_lines content).
Proof.
  unfold read_lines. apply Forall_forall. intros line Hin.
  apply in_map_iff in Hin. destruct Hin as [raw [<- Hraw]].
  apply filter_In in Hraw. destruct Hraw as [Hraw Htruthy].
  repeat split.
  - exact Htruthy.
  - apply strip_idempotent.
  - apply strip_keeps. unfold file_lines in Hraw.
    pose proof (split_by_free is_newline content) as Hfree.
    rewrite Forall_forall in Hfree. now apply Hfree.
Qed.

Lemma strip_filter_clean lines :
  Forall clean lines ->
  map strip (filter (fun line => truthy (strip line)) lines) = lines.
Proof.
  induction 1 as [|line rest [Ht [Hs _]] _ IH]; simpl; [reflexivity|].
  rewrite Hs, Ht. simpl. now rewrite Hs, IH.
Qed.

Lemma clean_no_newline line : clean line -> any_char is_newline line = false.
Proof. now intros [_ [_ H]]. Qed.

Lemma clean_no_LF line : clean line -> any_char (Ascii.eqb LF) line = false.
Proof.
  intros H. apply (any_char_weaken _ is_newline); [|now apply clean_no_newline].
  intros c Hc. unfold is_newline. rewrite Ascii.eqb_sym, Hc. reflexivity.
Qed.

Lemma read_lines_join lines :
  Forall clean lines -> read_lines (join NL lines) = lines.
Proof.
  intros Hclean. destruct lines as [|line rest]; [reflexivity|].
  unfold read_lines, file_lines, NL.
  rewrite split_by_join.
  - now apply strip_filter_clean.
  - reflexivity.
  - discriminate.
  - eapply Forall_impl; [|exact Hclean]. apply clean_no_newline.
Qed.

(** ** The table reader on the texts the routines build *)

Lemma filter_truthy_clean lines :
  Forall clean lines -> filter truthy lines = lines.
Proof.
  induction 1 as [|line rest [Ht _] _ IH]; simpl; [reflexivity|].
  now rewrite Ht, IH.
Qed.

Lemma read_table_part_content header data :
  clean header -> Forall clean data ->
  read_table (part_content header data) = Ok (tokenize header data).
Proof.
  intros Hh Hd. unfold read_table, part_content, split_char, NL.
  change (header ++ String LF EmptyString ++ join (String LF EmptyString) data)%string
    with (header ++ String LF (join (String LF EmptyString) data))%string.
  rewrite split_by_app_sep;
    [| now apply clean_no_LF | apply Ascii.eqb_refl].
  simpl filter. destruct Hh as [Ht _]. rewrite Ht.
  destruct data as [|line rest]; [reflexivity|].
  rewrite split_by_join.
  - now rewrite filter_truthy_clean.
  - apply Ascii.eqb_refl.
  - discriminate.
  - eapply Forall_impl; [|exact Hd]. apply clean_no_LF.
Qed.

Lemma table_lines_tokenize header data :
  fits_header (header :: data) ->
  table_lines (tokenize header data) = header :: data.
Proof.
  intros Hfit. unfold table_lines, tokenize. simpl columns. simpl rows.
  pose proof (split_by_not_nil (Ascii.eqb tab) header) as Hne.
  fold (split_char tab header) in Hne.
  destruct (split_char tab header) as [|col cols] eqn:Hcols; [congruence|].
  rewrite <- Hcols. unfold TAB. rewrite join_split_char. f_equal.
  rewrite map_map. simpl in Hfit.
  induction Hfit as [|line rest Hline _ IH]; simpl; [reflexivity|].
  rewrite IH. f_equal. unfold record.
  rewrite map_snd_combine by exact Hline. apply join_split_char.
Qed.

(** ** The two branches of read_csv_into_parts *)

Section Branches.

Context {P : Pandas}.

Lemma part2_data_slice (lines : list string) i :
  (if i <? length lines then slice_from lines i else []) = slice_from lines i.
Proof.
  destruct (i <? length lines) eqn:Hi; [reflexivity|].
  apply Nat.ltb_ge in Hi. unfold slice_from. symmetry.
  now apply skipn_all2.
Qed.

Lemma split_at_total_row_found lines s value df1 df2 :
  s + 1 < length lines ->
  second_field (line_at lines s) = Some value ->
  read_csv (part_content (line_at lines 0) (slice lines 1 s)) = Ok df1 ->
  read_csv (part_content (line_at lines (s + 1)) (slice_from lines (s + 2)))
  = Ok df2 ->
  split_at_total_row lines s = Ok (df1, value, df2).
Proof.
  intros Hs Hvalue H1 H2. unfold split_at_total_row.
  rewrite !getitem_line_at by lia. cbn [bind]. rewrite H1. cbn [bind].
  rewrite (second_field_getitem _ _ Hvalue). cbn [bind].
  rewrite (proj2 (Nat.ltb_lt _ _) Hs), part2_data_slice, H2. reflexivity.
Qed.

Lemma split_at_total_row_last lines s value df1 :
  s + 1 = length lines ->
  second_field (line_at lines s) = Some value ->
  read_csv (part_content (line_at lines 0) (slice lines 1 s)) = Ok df1 ->
  split_at_total_row lines s = Ok (df1, value, empty_frame).
Proof.
  intros Hs Hvalue H1. unfold split_at_total_row.
  rewrite !getitem_line_at by lia. cbn [bind]. rewrite H1. cbn [bind].
  rewrite (second_field_getitem _ _ Hvalue). cbn [bind].
  rewrite Hs, Nat.ltb_irrefl. reflexivity.
Qed.

Lemma split_at_total_row_malformed lines s :
  s < length lines ->
  length (split_char tab (line_at lines s)) < 2 ->
  exists e, split_at_total_row lines s = Raise e.
Proof.
  intros Hs Hfields. unfold split_at_total_row.
  rewrite !getitem_line_at by lia. cbn [bind].
  destruct (read_csv _) as [df1|e]; cbn [bind]; [|now exists e].
  rewrite (second_field_missing _ Hfields). now exists IndexError.
Qed.

Lemma split_broken_csv_malformed content s :
  first_sentinel (read_lines content) s ->
  length (split_char tab (line_at (read_lines content) s)) < 2 ->
  exists e, split_broken_csv content = Raise e.
Proof.
  intros Hs Hfields. unfold split_broken_csv.
  rewrite (find_total_row_complete _ 0 s Hs). simpl.
  apply first_sentinel_lt in Hs.
  rewrite !getitem_line_at by lia. cbn [bind].
  destruct (read_csv _) as [df1|e]; cbn [bind]; [|now exists e].
  rewrite (second_field_missing _ Hfields). now exists IndexError.
Qed.

Lemma split_at_mid_point_long lines :
  2 <= length lines ->
  split_at_mid_point lines
  = (df_part1 <- read_csv (part_content (line_at lines 0)
                             (slice lines 1 (length lines / 2))) ;;
     df_part2 <- read_csv (part_content (line_at lines (length lines / 2))
                             (slice_from lines (length lines / 2 + 1))) ;;
     Ok (df_part1, str (frame_len df_part1), df_part2)).
Proof.
  intros Hlen. unfold split_at_mid_point. cbv zeta.
  assert (Hpos : 0 < length lines / 2) by (apply Nat.div_str_pos; lia).
  assert (Hlt : length lines / 2 < length lines) by (apply Nat.div_lt; lia).
  rewrite (proj2 (Nat.ltb_lt _ _) Hpos), (proj2 (Nat.ltb_lt _ _) Hlt).
  rewrite !getitem_line_at by lia. reflexivity.
Qed.

Lemma split_at_mid_point_two lines df1 df2 :
  2 <= length lines ->
  read_csv (part_content (line_at lines 0) (slice lines 1 (length lines / 2)))
  = Ok df1 ->
  read_csv (part_content (line_at lines (length lines / 2))
                         (slice_from lines (length lines / 2 + 1))) = Ok df2 ->
  split_at_mid_point lines = Ok (df1, str (frame_len df1), df2).
Proof.
  intros Hlen H1 H2. rewrite (split_at_mid_point_long lines Hlen).
  rewrite H1. cbn [bind]. rewrite H2. reflexivity.
Qed.

Lemma split_at_mid_point_raises lines e :
  2 <= length lines ->
  split_at_mid_point lines = Raise e ->
  read_csv (part_content (line_at lines 0) (slice lines 1 (length lines / 2)))
  = Raise e
  \/ read_csv (part_content (line_at lines (length lines / 2))
                            (slice_from lines (length lines / 2 + 1)))
     = Raise e.
Proof.
  intros Hlen. rewrite (split_at_mid_point_long lines Hlen).
  destruct (read_csv (part_content (line_at lines 0) _)) as [df1|e1];
    cbn [bind]; [|intros H; left; now inversion H].
  destruct (read_csv (part_content (line_at lines (length lines / 2)) _))
    as [df2|e2]; cbn [bind];
    [discriminate | intros H; right; now inversion H].
Qed.

Lemma split_at_mid_point_short lines :
  length lines < 2 ->
  split_at_mid_point lines = Ok (empty_frame, "0"%string, empty_frame).
Proof.
  intros Hlen. unfold split_at_mid_point. cbv zeta.
  now rewrite (Nat.div_small _ _ Hlen).
Qed.

Lemma read_csv_into_parts_marked content s :
  first_sentinel (read_lines content) s ->
  read_csv_into_parts content
  = try_except (split_at_total_row (read_lines content) s)
               (fun _ => Raise ValueError).
Proof.
  intros Hs. unfold read_csv_into_parts, read_csv_into_parts_body.
  now rewrite (find_total_row_complete _ 0 s Hs).
Qed.

Lemma read_csv_into_parts_unmarked content :
  no_sentinel (read_lines content) ->
  read_csv_into_parts content
  = try_except (split_at_mid_point (read_lines content))
               (fun _ => Raise ValueError).
Proof.
  intros Hno. unfold read_csv_into_parts, read_csv_into_parts_body.
  now rewrite (proj1 (find_total_row_none _ 0) Hno).
Qed.

End Branches.

Lemma clean_line_at lines i :
  Forall clean lines -> i < length lines -> clean (line_at lines i).
Proof.
  intros Hclean Hi. rewrite Forall_forall in Hclean. apply Hclean.
  now apply nth_In.
Qed.

Lemma Forall_firstn_skipn {A : Type} (Q : A -> Prop) n (l : list A) :
  Forall Q l -> Forall Q (firstn n l) /\ Forall Q (skipn n l).
Proof.
  intros H. rewrite <- (firstn_skipn n l) in H.
  now apply Forall_app in H.
Qed.

Lemma clean_slice lines a b : Forall clean lines -> Forall clean (slice lines a b).
Proof.
  intros Hclean. unfold slice.
  apply Forall_firstn_skipn. now apply (Forall_firstn_skipn clean a lines).
Qed.

Lemma clean_slice_from lines a :
  Forall clean lines -> Forall clean (slice_from lines a).
Proof. intros Hclean. now apply (Forall_firstn_skipn clean a lines). Qed.

(** ** read_csv_into_parts with the tables of the specification *)

Lemma spec_split_at_total_row content s value :
  let lines := read_lines content in
  first_sentinel lines s ->
  second_field (line_at lines s) = Some value ->
  split_at_total_row (P := SpecTables) lines s
  = Ok (tokenize (line_at lines 0) (slice lines 1 s), value,
        if s + 1 <? length lines
        then tokenize (line_at lines (s + 1)) (slice_from lines (s + 2))
        else empty_table).
Proof.
  intros lines Hs Hvalue.
  pose proof (read_lines_clean content) as Hclean. fold lines in Hclean.
  pose proof (first_sentinel_lt _ _ Hs) as Hlt.
  assert (H1 : read_csv (Pandas := SpecTables)
                 (part_content (line_at lines 0) (slice lines 1 s))
               = Ok (tokenize (line_at lines 0) (slice lines 1 s))).
  { apply read_table_part_content;
      [apply clean_line_at; [assumption | lia] | now apply clean_slice]. }
  destruct (s + 1 <? length lines) eqn:Hnext.
  - apply Nat.ltb_lt in Hnext.
    apply (split_at_total_row_found (P := SpecTables)); try assumption.
    apply read_table_part_content;
      [now apply clean_line_at | now apply clean_slice_from].
  - apply Nat.ltb_ge in Hnext.
    apply (split_at_total_row_last (P := SpecTables)); try assumption. lia.
Qed.

Lemma spec_split_at_mid_point content :
  let lines := read_lines content in
  let m := length lines / 2 in
  2 <= length lines ->
  split_at_mid_point (P := SpecTables) lines
  = Ok (tokenize (line_at lines 0) (slice lines 1 m),
        str (length (rows (tokenize (line_at lines 0) (slice lines 1 m)))),
        tokenize (line_at lines m) (slice_from lines (m + 1))).
Proof.
  intros lines m Hlen.
  pose proof (read_lines_clean content) as Hclean. fold lines in Hclean.
  assert (Hlt : m < length lines) by (apply Nat.div_lt; lia).
  apply (split_at_mid_point_two (P := SpecTables)); try assumption.
  - apply read_table_part_content;
      [apply clean_line_at; [assumption | lia] | now apply clean_slice].
  - apply read_table_part_content;
      [now apply clean_line_at | now apply clean_slice_from].
Qed.

(** ** Where the two branches raise *)

Section BranchFailures.

Context {P : Pandas}.

Lemma split_at_total_row_raises lines s value e :
  s < length lines ->
  second_field (line_at lines s) = Some value ->
  split_at_total_row lines s = Raise e ->
  read_csv (part_content (line_at lines 0) (slice lines 1 s)) = Raise e
  \/ (s + 1 < length lines
      /\ read_csv (part_content (line_at lines (s + 1))
                                (slice_from lines (s + 2))) = Raise e).
Proof.
  intros Hs Hvalue. unfold split_at_total_row.
  rewrite !getitem_line_at by lia. cbn [bind].
  destruct (read_csv (part_content (line_at lines 0) _)) as [df1|e1];
    cbn [bind]; [|intros H; left; now inversion H].
  rewrite (second_field_getitem _ _ Hvalue). cbn [bind].
  destruct (s + 1 <? length lines) eqn:Hnext; [|discriminate].
  apply Nat.ltb_lt in Hnext.
  rewrite getitem_line_at by lia. cbn [bind]. rewrite part2_data_slice.
  destruct (read_csv _) as [df2|e2]; cbn [bind];
    [discriminate | intros H; right; split; [lia | now inversion H]].
Qed.

Lemma split_at_mid_point_fails lines :
  2 <= length lines ->
  (exists e1, read_csv (part_content (line_at lines 0)
                          (slice lines 1 (length lines / 2))) = Raise e1)
  \/ (exists e2, read_csv (part_content (line_at lines (length lines / 2))
                             (slice_from lines (length lines / 2 + 1)))
                 = Raise e2) ->
  exists e, split_at_mid_point lines = Raise e.
Proof.
  intros Hlen H. rewrite (split_at_mid_point_long lines Hlen).
  destruct (read_csv (part_content (line_at lines 0) _)) as [df1|e1];
    cbn [bind]; [|now exists e1].
  destruct H as [[e1 H] | [e2 H]]; [discriminate H|].
  rewrite H. now exists e2.
Qed.

End BranchFailures.

(** ** The decimal string of a number *)

Lemma string_of_uint_digits d : all_chars isdigit (NilEmpty.string_of_uint d).
Proof.
  unfold all_chars.
  induction d as [|d IH|d IH|d IH|d IH|d IH|d IH|d IH|d IH|d IH|d IH];
    cbn [NilEmpty.string_of_uint any_char]; [reflexivity|..];
    rewrite IH; reflexivity.
Qed.

Lemma decimal_value_of_uint d : forall acc,
  decimal_value acc (NilEmpty.string_of_uint d) = Nat.of_uint_acc d acc.
Proof.
  induction d as [|d IH|d IH|d IH|d IH|d IH|d IH|d IH|d IH|d IH|d IH];
    intros acc; cbn [NilEmpty.string_of_uint decimal_value Nat.of_uint_acc];
    [reflexivity|..];
    rewrite IH, Nat.tail_mul_spec; f_equal;
    change (digit_value _) with 0 || change (digit_value _) with 1
    || change (digit_value _) with 2 || change (digit_value _) with 3
    || change (digit_value _) with 4 || change (digit_value _) with 5
    || change (digit_value _) with 6 || change (digit_value _) with 7
    || change (digit_value _) with 8 || change (digit_value _) with 9; lia.
Qed.

Lemma to_uint_normal n : Decimal.unorm (Nat.to_uint n) = Nat.to_uint n.
Proof.
  rewrite <- (DecimalNat.Unsigned.of_to n) at 2.
  now rewrite DecimalNat.Unsigned.to_of.
Qed.

(** [str] gives the decimal string of its argument. *)
Lemma str_decimal n : decimal_string n (str n).
Proof.
  unfold str, decimal_string.
  pose proof (to_uint_normal n) as Hnorm.
  pose proof (DecimalNat.Unsigned.of_to n) as Hval.
  destruct (Nat.to_uint n) as [|d|d|d|d|d|d|d|d|d|d] eqn:Hd;
    try (repeat split;
         [ discriminate
         | apply (string_of_uint_digits (_ d))
         | discriminate
         | unfold NilZero.string_of_uint;
           rewrite decimal_value_of_uint; exact Hval ]).
  - exfalso. apply (DecimalFacts.unorm_nonnil Decimal.Nil). exact Hnorm.
  - repeat split.
    + discriminate.
    + apply (string_of_uint_digits (Decimal.D0 d)).
    + intros _. unfold Decimal.unorm in Hnorm.
      rewrite DecimalFacts.nzhead_D0 in Hnorm.
      destruct (Decimal.nzhead d) eqn:Hnz; try discriminate Hnorm.
      * injection Hnorm as <-. reflexivity.
      * injection Hnorm as Hu. subst d. exfalso.
        exact (DecimalFacts.nzhead_nonzero _ _ Hnz).
    + unfold NilZero.string_of_uint. rewrite decimal_value_of_uint.
      exact Hval.
Qed.

(** * The properties of the specification *)

(** C1, as the code has it.  When the non-empty trimmed lines contain a
    marker line, the first one at index [s], and that line has a second
    tab-separated field [value], [read_csv_into_parts] hands header line 0
    with data lines [1, s) and, when there is a line s+1, header line s+1
    with data lines [s+2, end) to the table reader.  When the reader
    returns on them, the result is the first table, [value] and the second
    table, which is the empty frame when the marker line is the last line.
    The routine raises, and then ValueError, only where the reader raises
    on one of the two texts.  With the tables of the specification the two
    tables are the tokenized lines.  On scenario A the rows are
    [{H1:a,H2:b}], the value is "2" and the second rows are
    [{H3:c,H4:d}]. *)
Theorem recover_sentinel_present :
  forall (content : string) (s : nat) (value : string),
    let lines := read_lines content in
    first_sentinel lines s ->
    second_field (line_at lines s) = Some value ->
    (forall (P : Pandas) (df1 df2 : DataFrame),
        s + 1 < length lines ->
        read_csv (part_content (line_at lines 0) (slice lines 1 s)) = Ok df1 ->
        read_csv (part_content (line_at lines (s + 1))
                               (slice_from lines (s + 2))) = Ok df2 ->
        read_csv_into_parts content = Ok (df1, value, df2))
    /\ (forall (P : Pandas) (df1 : DataFrame),
          s + 1 = length lines ->
          read_csv (part_content (line_at lines 0) (slice lines 1 s))
          = Ok df1 ->
          read_csv_into_parts content = Ok (df1, value, empty_frame))
    /\ (forall (P : Pandas) (e : exn),
          read_csv_into_parts content = Raise e ->
          e = ValueError
          /\ ((exists e1, read_csv (part_content (line_at lines 0)
                                      (slice lines 1 s)) = Raise e1)
              \/ (s + 1 < length lines
                  /\ exists e2, read_csv (part_content (line_at lines (s + 1))
                                            (slice_from lines (s + 2)))
                                = Raise e2)))
    /\ read_csv_into_parts (P := SpecTables) content
       = Ok (tokenize (line_at lines 0) (slice lines 1 s), value,
             if s + 1 <? length lines
             then tokenize (line_at lines (s + 1)) (slice_from lines (s + 2))
             else empty_table)
    /\ (read_lines scenario_A
        = [("H1" ++ TAB ++ "H2")%string; ("a" ++ TAB ++ "b")%string;
           ("Total_Rows" ++ TAB ++ "2")%string;
           ("H3" ++ TAB ++ "H4")%string; ("c" ++ TAB ++ "d")%string]
        /\ read_csv_into_parts (P := SpecTables) scenario_A
           = Ok ({| columns := ["H1"; "H2"]%string;
                    rows := [[("H1", "a"); ("H2", "b")]]%string |},
                 "2"%string,
                 {| columns := ["H3"; "H4"]%string;
                    rows := [[("H3", "c"); ("H4", "d")]]%string |})).
Proof.
  intros content s value lines Hs Hvalue.
  split; [|split; [|split; [|split]]].
  - intros P df1 df2 Hnext H1 H2.
    rewrite (read_csv_into_parts_marked _ _ Hs). fold lines.
    now rewrite (split_at_total_row_found lines s value df1 df2).
  - intros P df1 Hlast H1.
    rewrite (read_csv_into_parts_marked _ _ Hs). fold lines.
    now rewrite (split_at_total_row_last lines s value df1).
  - intros P e. rewrite (read_csv_into_parts_marked _ _ Hs). fold lines.
    destruct (split_at_total_row lines s) as [r|e0] eqn:Hsplit;
      cbn [try_except]; [discriminate|].
    intros H. split; [now inversion H|].
    destruct (split_at_total_row_raises lines s value e0
                (first_sentinel_lt _ _ Hs) Hvalue Hsplit) as [H1 | [Hnext H2]].
    + left. now exists e0.
    + right. split; [exact Hnext | now exists e0].
  - rewrite (read_csv_into_parts_marked _ _ Hs).
    now rewrite (spec_split_at_total_row content s value Hs Hvalue).
  - split; vm_compute; reflexivity.
Qed.

Lemma recover_sentinel_present_witness :
  first_sentinel (read_lines scenario_A) 2
  /\ second_field (line_at (read_lines scenario_A) 2) = Some "2"%string
  /\ read_csv_into_parts (P := SpecTables) scenario_A
     = Ok (tokenize ("H1" ++ TAB ++ "H2") [("a" ++ TAB ++ "b")%string],
           "2"%string,
           tokenize ("H3" ++ TAB ++ "H4") [("c" ++ TAB ++ "d")%string]).
Proof.
  assert (Hs : first_sentinel (read_lines scenario_A) 2)
    by first_sentinel_by_computation.
  assert (Hvalue : second_field (line_at (read_lines scenario_A) 2)
                   = Some "2"%string) by reflexivity.
  repeat (split; [assumption|]).
  exact (proj1 (proj2 (proj2 (proj2
           (recover_sentinel_present scenario_A 2 "2"%string Hs Hvalue))))).
Defined.

(** C1 as stated fails where the marker line has no second field: the
    lines H, Total_Rows, X have their first marker line at index 1, and
    [read_csv_into_parts] returns no result on them but raises ValueError,
    whatever the table reader. *)
Lemma recover_sentinel_present_without_value :
  first_sentinel (read_lines marker_without_value) 1
  /\ second_field (line_at (read_lines marker_without_value) 1) = None
  /\ read_csv_into_parts (P := SpecTables) marker_without_value
     = Raise ValueError
  /\ (forall P : Pandas,
        read_csv_into_parts marker_without_value = Raise ValueError).
Proof.
  assert (Hs : first_sentinel (read_lines marker_without_value) 1)
    by first_sentinel_by_computation.
  assert (Hall : forall P : Pandas,
             read_csv_into_parts marker_without_value = Raise ValueError).
  { intros P. rewrite (read_csv_into_parts_marked _ _ Hs).
    destruct (split_at_total_row_malformed
                (read_lines marker_without_value) 1) as [e ->];
      [vm_compute; lia | vm_compute; lia | reflexivity]. }
  split; [exact Hs|]. split; [reflexivity|].
  split; [apply (Hall SpecTables) | exact Hall].
Qed.

(** C2, as the code has it.  With at least two non-empty trimmed lines
    and no marker line, [read_csv_into_parts] raises nothing of its own.
    It splits at [m = length / 2] and hands header line 0 with data lines
    [1, m) and header line [m] with data lines [m+1, end) to the table
    reader.  When the reader returns on both texts, the result is the two
    tables and, as value, the decimal string of the length of the first
    table as read.  It fails exactly when the reader raises on one of the
    two texts, and then with ValueError.  With the tables of the
    specification it always returns. *)
Theorem recover_fallback :
  forall (content : string),
    let lines := read_lines content in
    let m := length lines / 2 in
    2 <= length lines ->
    no_sentinel lines ->
    (forall (P : Pandas) (df1 df2 : DataFrame),
        read_csv (part_content (line_at lines 0) (slice lines 1 m)) = Ok df1 ->
        read_csv (part_content (line_at lines m) (slice_from lines (m + 1)))
        = Ok df2 ->
        exists total_rows,
          read_csv_into_parts content = Ok (df1, total_rows, df2)
          /\ decimal_string (frame_len df1) total_rows)
    /\ (forall (P : Pandas) (e : exn),
          read_csv_into_parts content = Raise e
          <-> (e = ValueError
               /\ ((exists e1, read_csv (part_content (line_at lines 0)
                                           (slice lines 1 m)) = Raise e1)
                   \/ (exists e2, read_csv (part_content (line_at lines m)
                                              (slice_from lines (m + 1)))
                                  = Raise e2))))
    /\ (exists total_rows,
          read_csv_into_parts (P := SpecTables) content
          = Ok (tokenize (line_at lines 0) (slice lines 1 m), total_rows,
                tokenize (line_at lines m) (slice_from lines (m + 1)))
          /\ decimal_string
               (length (rows (tokenize (line_at lines 0) (slice lines 1 m))))
               total_rows).
Proof.
  intros content lines m Hlen Hno. split; [|split].
  - intros P df1 df2 H1 H2. exists (str (frame_len df1)).
    split; [|apply str_decimal].
    rewrite (read_csv_into_parts_unmarked _ Hno). fold lines.
    now rewrite (split_at_mid_point_two lines df1 df2).
  - intros P e. rewrite (read_csv_into_parts_unmarked _ Hno). fold lines.
    split.
    + destruct (split_at_mid_point lines) as [r|e0] eqn:Hsplit;
        cbn [try_except]; [discriminate|].
      intros H. split; [now inversion H|].
      destruct (split_at_mid_point_raises lines e0 Hlen Hsplit) as [H1 | H2];
        [left | right]; now exists e0.
    + intros [-> Hraises].
      destruct (split_at_mid_point_fails lines Hlen Hraises) as [e0 ->].
      reflexivity.
  - exists (str (length (rows (tokenize (line_at lines 0)
                                        (slice lines 1 m))))).
    split; [|apply str_decimal].
    rewrite (read_csv_into_parts_unmarked _ Hno).
    now rewrite (spec_split_at_mid_point content Hlen).
Qed.

Lemma recover_fallback_witness :
  (2 <= length (read_lines scenario_B)
   /\ no_sentinel (read_lines scenario_B)
   /\ read_csv_into_parts (P := SpecTables) scenario_B
      = Ok ({| columns := ["h1"]%string; rows := [[("h1", "a")]]%string |},
            "1"%string,
            {| columns := ["h2"]%string; rows := [[("h2", "b")]]%string |}))
  /\ (2 <= length (read_lines twenty_four_lines)
      /\ no_sentinel (read_lines twenty_four_lines)
      /\ read_csv_into_parts (P := SpecTables) twenty_four_lines
         = Ok (tokenize "x" (repeat "x"%string 11), "11"%string,
               tokenize "x" (repeat "x"%string 11))
      /\ decimal_string 11 "11").
Proof.
  assert (Hlen : 2 <= length (read_lines scenario_B)) by (vm_compute; lia).
  assert (Hno : no_sentinel (read_lines scenario_B)).
  { intros line Hin. vm_compute in Hin.
    repeat (destruct Hin as [<- | Hin]; [reflexivity|]). contradiction. }
  assert (Hlen' : 2 <= length (read_lines twenty_four_lines))
    by (vm_compute; lia).
  assert (Hno' : no_sentinel (read_lines twenty_four_lines)).
  { intros line Hin. vm_compute in Hin.
    repeat (destruct Hin as [<- | Hin]; [reflexivity|]). contradiction. }
  split.
  - repeat (split; [assumption|]).
    destruct (proj2 (proj2 (recover_fallback scenario_B Hlen Hno)))
      as [total_rows [Hrun _]].
    rewrite Hrun. vm_compute in Hrun.
    injection Hrun as <-. reflexivity.
  - repeat (split; [assumption|]).
    destruct (proj2 (proj2 (recover_fallback twenty_four_lines Hlen' Hno')))
      as [total_rows [Hrun Hdec]].
    assert (Htotal : total_rows = "11"%string).
    { vm_compute in Hrun. now injection Hrun as <-. }
    subst total_rows. split; [exact Hrun | exact Hdec].
Defined.

(** C2 as stated fails where the table reader raises: the first part of
    [ragged_rows], its lines 0 to 2, has a line of three fields after a
    line of two, on which pandas raises its ParserError, and as the parser
    that reports such a row does; [read_csv_into_parts] then fails with
    ValueError. *)
Lemma recover_fallback_reader_raises :
  2 <= length (read_lines ragged_rows)
  /\ no_sentinel (read_lines ragged_rows)
  /\ read_csv (Pandas := StrictTables)
       (part_content ("H1" ++ TAB ++ "H2")
          [("a" ++ TAB ++ "b")%string;
           ("c" ++ TAB ++ "d" ++ TAB ++ "e")%string])
     = Raise ParserError
  /\ read_csv_into_parts (P := StrictTables) ragged_rows = Raise ValueError
  /\ (forall (P : Pandas) (e : exn),
        read_csv (part_content ("H1" ++ TAB ++ "H2")
                    [("a" ++ TAB ++ "b")%string;
                     ("c" ++ TAB ++ "d" ++ TAB ++ "e")%string])
        = Raise e ->
        read_csv_into_parts ragged_rows = Raise ValueError).
Proof.
  assert (Hlen : 2 <= length (read_lines ragged_rows)) by (vm_compute; lia).
  assert (Hno : no_sentinel (read_lines ragged_rows)).
  { intros line Hin. vm_compute in Hin.
    repeat (destruct Hin as [<- | Hin]; [reflexivity|]). contradiction. }
  assert (Hall : forall (P : Pandas) (e : exn),
             read_csv (part_content ("H1" ++ TAB ++ "H2")
                         [("a" ++ TAB ++ "b")%string;
                          ("c" ++ TAB ++ "d" ++ TAB ++ "e")%string])
             = Raise e ->
             read_csv_into_parts ragged_rows = Raise ValueError).
  { intros P e Hraise.
    rewrite (read_csv_into_parts_unmarked _ Hno).
    rewrite (split_at_mid_point_long _ Hlen).
    change (part_content (line_at (read_lines ragged_rows) 0)
              (slice (read_lines ragged_rows) 1
                 (length (read_lines ragged_rows) / 2)))
      with (part_content ("H1" ++ TAB ++ "H2")
              [("a" ++ TAB ++ "b")%string;
               ("c" ++ TAB ++ "d" ++ TAB ++ "e")%string]).
    rewrite Hraise. reflexivity. }
  split; [exact Hlen|]. split; [exact Hno|].
  split; [reflexivity|].
  split; [apply (Hall StrictTables ParserError); reflexivity | exact Hall].
Qed.

(** C3, as the code has it.  On an input without a non-empty line
    [read_csv_into_parts] does not fail: it takes the branch without
    marker line with [m = 0] and returns the empty first table, the value
    "0" and the empty second table.  Only [split_broken_csv] raises on such
    an input, the ValueError of the missing marker line. *)
Theorem recover_empty_input :
  forall (P : Pandas) (content : string),
    read_lines content = [] ->
    length (read_lines content) / 2 = 0
    /\ read_csv_into_parts content = Ok (empty_frame, "0"%string, empty_frame)
    /\ split_broken_csv content = Raise ValueError.
Proof.
  intros P content Hempty. split; [|split].
  - now rewrite Hempty.
  - unfold read_csv_into_parts, read_csv_into_parts_body.
    rewrite Hempty. reflexivity.
  - unfold split_broken_csv. rewrite Hempty. reflexivity.
Qed.

Lemma recover_empty_input_witness :
  read_lines blank_lines = []
  /\ read_csv_into_parts (P := SpecTables) blank_lines
     = Ok (empty_table, "0"%string, empty_table)
  /\ split_broken_csv (P := SpecTables) blank_lines = Raise ValueError.
Proof.
  split; [reflexivity|].
  exact (proj2 (recover_empty_input SpecTables blank_lines eq_refl)).
Defined.

(** C3 as stated fails: on blank lines only, [read_csv_into_parts] returns
    a result and raises no error. *)
Lemma recover_empty_input_returns :
  read_lines blank_lines = []
  /\ read_csv_into_parts (P := SpecTables) blank_lines
     = Ok (empty_table, "0"%string, empty_table)
  /\ forall e, read_csv_into_parts (P := SpecTables) blank_lines <> Raise e.
Proof.
  split; [reflexivity|]. split; [reflexivity|].
  intros e. vm_compute. discriminate.
Qed.

(** C4.  When the first marker line has fewer than two tab-separated
    fields, [read_csv_into_parts] fails, with its ValueError, and
    [split_broken_csv] raises too. *)
Theorem recover_malformed_sentinel :
  forall (P : Pandas) (content : string) (s : nat),
    let lines := read_lines content in
    first_sentinel lines s ->
    length (split_char tab (line_at lines s)) < 2 ->
    read_csv_into_parts content = Raise ValueError
    /\ exists e, split_broken_csv content = Raise e.
Proof.
  intros P content s lines Hs Hfields. split.
  - rewrite (read_csv_into_parts_marked _ _ Hs). fold lines.
    destruct (split_at_total_row_malformed lines s
                (first_sentinel_lt _ _ Hs) Hfields) as [e ->].
    reflexivity.
  - now apply split_broken_csv_malformed with (s := s).
Qed.

Lemma recover_malformed_sentinel_witness :
  first_sentinel (read_lines marker_without_value) 1
  /\ length (split_char tab (line_at (read_lines marker_without_value) 1)) < 2
  /\ read_csv_into_parts (P := SpecTables) marker_without_value
     = Raise ValueError.
Proof.
  assert (Hs : first_sentinel (read_lines marker_without_value) 1)
    by first_sentinel_by_computation.
  assert (Hfields : length (split_char tab
                      (line_at (read_lines marker_without_value) 1)) < 2)
    by (vm_compute; lia).
  repeat (split; [assumption|]).
  exact (proj1 (recover_malformed_sentinel SpecTables marker_without_value 1
                  Hs Hfields)).
Defined.

(** C5, as the code has it.  When the marker line is the last line and
    has a second tab-separated field [value], [read_csv_into_parts] raises
    no error for the missing second part: when the table reader returns on
    the first part, the result is that table, [value], and the empty
    table, which has no header and no rows.  It raises, and then
    ValueError, only where the reader raises on the first part. *)
Theorem recover_sentinel_last :
  forall (content : string) (s : nat) (value : string),
    let lines := read_lines content in
    first_sentinel lines s ->
    s + 1 = length lines ->
    second_field (line_at lines s) = Some value ->
    (forall (P : Pandas) (df1 : DataFrame),
        read_csv (part_content (line_at lines 0) (slice lines 1 s)) = Ok df1 ->
        read_csv_into_parts content = Ok (df1, value, empty_frame))
    /\ (forall (P : Pandas) (e : exn),
          read_csv_into_parts content = Raise e ->
          e = ValueError
          /\ exists e1, read_csv (part_content (line_at lines 0)
                                    (slice lines 1 s)) = Raise e1)
    /\ read_csv_into_parts (P := SpecTables) content
       = Ok (tokenize (line_at lines 0) (slice lines 1 s), value, empty_table)
    /\ columns empty_table = [] /\ rows empty_table = [].
Proof.
  intros content s value lines Hs Hlast Hvalue. split; [|split; [|split]].
  - intros P df1 H1.
    rewrite (read_csv_into_parts_marked _ _ Hs). fold lines.
    now rewrite (split_at_total_row_last lines s value df1).
  - intros P e. rewrite (read_csv_into_parts_marked _ _ Hs). fold lines.
    destruct (split_at_total_row lines s) as [r|e0] eqn:Hsplit;
      cbn [try_except]; [discriminate|].
    intros H. split; [now inversion H|].
    destruct (split_at_total_row_raises lines s value e0
                (first_sentinel_lt _ _ Hs) Hvalue Hsplit) as [H1 | [Hnext _]];
      [now exists e0 | lia].
  - rewrite (read_csv_into_parts_marked _ _ Hs).
    rewrite (spec_split_at_total_row content s value Hs Hvalue). fold lines.
    now rewrite Hlast, Nat.ltb_irrefl.
  - split; reflexivity.
Qed.

Lemma recover_sentinel_last_witness :
  first_sentinel (read_lines marker_last) 1
  /\ 1 + 1 = length (read_lines marker_last)
  /\ second_field (line_at (read_lines marker_last) 1) = Some "7"%string
  /\ read_csv_into_parts (P := SpecTables) marker_last
     = Ok ({| columns := ["H"]%string; rows := [] |}, "7"%string, empty_table).
Proof.
  assert (Hs : first_sentinel (read_lines marker_last) 1)
    by first_sentinel_by_computation.
  repeat (split; [first [assumption | reflexivity]|]).
  exact (proj1 (proj2 (proj2 (recover_sentinel_last marker_last 1 "7"%string
                                Hs eq_refl eq_refl)))).
Defined.

(** C5 as stated fails where the last line is a marker line without a
    second field: on the lines H, Total_Rows the value is indexed before
    the second part is looked at, and [read_csv_into_parts] raises
    ValueError, whatever the table reader. *)
Lemma recover_sentinel_last_without_value :
  first_sentinel (read_lines marker_last_without_value) 1
  /\ 1 + 1 = length (read_lines marker_last_without_value)
  /\ second_field (line_at (read_lines marker_last_without_value) 1) = None
  /\ read_csv_into_parts (P := SpecTables) marker_last_without_value
     = Raise ValueError
  /\ (forall P : Pandas,
        read_csv_into_parts marker_last_without_value = Raise ValueError).
Proof.
  assert (Hs : first_sentinel (read_lines marker_last_without_value) 1)
    by first_sentinel_by_computation.
  assert (Hall : forall P : Pandas,
             read_csv_into_parts marker_last_without_value
             = Raise ValueError).
  { intros P. rewrite (read_csv_into_parts_marked _ _ Hs).
    destruct (split_at_total_row_malformed
                (read_lines marker_last_without_value) 1) as [e ->];
      [vm_compute; lia | vm_compute; lia | reflexivity]. }
  split; [exact Hs|]. split; [reflexivity|]. split; [reflexivity|].
  split; [apply (Hall SpecTables) | exact Hall].
Qed.

(** [split_broken_csv] has no guard for a marker line in last position: it
    indexes the line after it. *)
Lemma split_broken_csv_sentinel_last (P : Pandas) content s :
  first_sentinel (read_lines content) s ->
  s + 1 = length (read_lines content) ->
  exists e, split_broken_csv content = Raise e.
Proof.
  intros Hs Hlast. unfold split_broken_csv.
  rewrite (find_total_row_complete _ 0 s Hs). simpl.
  rewrite !getitem_line_at by lia. cbn [bind].
  destruct (read_csv _) as [df1|e]; cbn [bind]; [|now exists e].
  destruct (getitem (split_char tab _) 1) as [value|e];
    cbn [bind]; [|now exists e].
  rewrite getitem_out_of_range by lia. now exists IndexError.
Qed.

(** C7.  With exactly one non-empty trimmed line, not a marker line,
    [read_csv_into_parts] takes the branch without marker with
    [m = 1 / 2 = 0] and returns the empty first table, the value "0" and
    the empty second table (no header, no rows): the line is dropped,
    nothing is raised. *)
Theorem recover_single_line :
  forall (P : Pandas) (content line : string),
    read_lines content = [line] ->
    startswith line Total_Rows = false ->
    find_total_row 0 (read_lines content) = None
    /\ length (read_lines content) / 2 = 0
    /\ read_csv_into_parts content = Ok (empty_frame, "0"%string, empty_frame)
    /\ read_csv_into_parts (P := SpecTables) content
       = Ok ({| columns := []; rows := [] |}, "0"%string,
             {| columns := []; rows := [] |}).
Proof.
  intros P content line Hlines Hline.
  assert (Hfind : find_total_row 0 (read_lines content) = None).
  { rewrite Hlines. simpl. now rewrite Hline. }
  assert (Hrun : forall Q : Pandas,
             read_csv_into_parts content
             = Ok (empty_frame, "0"%string, empty_frame)).
  { intros Q. unfold read_csv_into_parts, read_csv_into_parts_body.
    rewrite Hfind, split_at_mid_point_short; [reflexivity|].
    rewrite Hlines. simpl. lia. }
  split; [exact Hfind|]. split; [now rewrite Hlines|].
  split; [apply Hrun | apply (Hrun SpecTables)].
Qed.

Lemma recover_single_line_witness :
  read_lines "Only Header"%string = ["Only Header"%string]
  /\ startswith "Only Header" Total_Rows = false
  /\ read_csv_into_parts (P := SpecTables) "Only Header"
     = Ok (empty_table, "0"%string, empty_table).
Proof.
  split; [reflexivity|]. split; [reflexivity|].
  exact (proj1 (proj2 (proj2 (recover_single_line SpecTables "Only Header"
                                "Only Header" eq_refl eq_refl)))).
Defined.

Lemma spec_split_at_mid_point_returns content :
  exists r, split_at_mid_point (P := SpecTables) (read_lines content) = Ok r.
Proof.
  destruct (Nat.lt_ge_cases (length (read_lines content)) 2) as [Hlen | Hlen].
  - rewrite split_at_mid_point_short by exact Hlen. now eexists.
  - rewrite (spec_split_at_mid_point content Hlen). now eexists.
Qed.

(** C10.  Without a marker line [split_broken_csv] raises ValueError,
    whatever the table reader: it has no split at the middle.
    [read_csv_into_parts] on the same input goes through its split at the
    middle and, with the tables of the specification, returns a result, so
    the two routines differ there. *)
Theorem split_broken_csv_no_fallback :
  forall (content : string),
    no_sentinel (read_lines content) ->
    (forall P : Pandas, split_broken_csv content = Raise ValueError)
    /\ (forall P : Pandas,
          read_csv_into_parts content
          = try_except (split_at_mid_point (read_lines content))
                       (fun _ => Raise ValueError))
    /\ (exists r, read_csv_into_parts (P := SpecTables) content = Ok r)
    /\ read_csv_into_parts (P := SpecTables) content
       <> split_broken_csv (P := SpecTables) content.
Proof.
  intros content Hno.
  assert (Hsplit : forall P : Pandas, split_broken_csv content = Raise ValueError).
  { intros P. unfold split_broken_csv.
    now rewrite (proj1 (find_total_row_none _ 0) Hno). }
  assert (Hret : exists r, read_csv_into_parts (P := SpecTables) content = Ok r).
  { rewrite (read_csv_into_parts_unmarked _ Hno).
    destruct (spec_split_at_mid_point_returns content) as [r ->].
    now exists r. }
  split; [exact Hsplit|].
  split; [intros P; now apply read_csv_into_parts_unmarked|].
  split; [exact Hret|].
  destruct Hret as [r ->]. rewrite Hsplit. discriminate.
Qed.

Lemma split_broken_csv_no_fallback_witness :
  no_sentinel (read_lines scenario_B)
  /\ split_broken_csv (P := SpecTables) scenario_B = Raise ValueError.
Proof.
  assert (Hno : no_sentinel (read_lines scenario_B)).
  { intros line Hin. vm_compute in Hin.
    repeat (destruct Hin as [<- | Hin]; [reflexivity|]). contradiction. }
  split; [assumption|].
  exact (proj1 (split_broken_csv_no_fallback scenario_B Hno) SpecTables).
Defined.

(** ** Occurrences of a keyword *)

Lemma startswith_app p rest : startswith (p ++ rest) p = true.
Proof.
  induction p as [|a p IH]; simpl; [now destruct rest|].
  now rewrite Ascii.eqb_refl, IH.
Qed.

Lemma startswith_drop s : forall p,
  startswith s p = true -> s = (p ++ drop (String.length p) s)%string.
Proof.
  induction s as [|b s IH]; intros [|a p] H; simpl in *;
    try reflexivity; try discriminate.
  apply andb_true_iff in H. destruct H as [Hab Hp].
  apply Ascii.eqb_eq in Hab. subst b. f_equal. now apply IH.
Qed.

Lemma contains_unfold s kw :
  contains s kw
  = startswith s kw
    || match s with
       | EmptyString => false
       | String _ s' => contains s' kw
       end.
Proof. destruct s; reflexivity. Qed.

Lemma cut_unfold s sep :
  cut s sep
  = if startswith s sep then Some (EmptyString, drop (String.length sep) s)
    else match s with
         | EmptyString => None
         | String c s' =>
             match cut s' sep with
             | Some (before, after) => Some (String c before, after)
             | None => None
             end
         end.
Proof. destruct s; reflexivity. Qed.

Lemma contains_occurs s kw : contains s kw = true <-> occurs kw s.
Proof.
  split.
  - induction s as [|c s IH]; rewrite contains_unfold; intros H;
      apply orb_true_iff in H; destruct H as [H | H]; try discriminate.
    + exists EmptyString, (drop (String.length kw) EmptyString).
      now apply startswith_drop.
    + exists EmptyString, (drop (String.length kw) (String c s)).
      now apply startswith_drop.
    + destruct (IH H) as [before [after ->]].
      now exists (String c before), after.
  - intros [before [after ->]].
    induction before as [|c before IH].
    + rewrite contains_unfold. simpl append. now rewrite startswith_app.
    + change (startswith (String c (before ++ kw ++ after)) kw
              || contains (before ++ kw ++ after) kw = true).
      rewrite IH. apply orb_true_r.
Qed.

Lemma cut_leftmost s sep : forall before after,
  cut s sep = Some (before, after) ->
  s = (before ++ sep ++ after)%string
  /\ forall b a, s = (b ++ sep ++ a)%string ->
                 String.length before <= String.length b.
Proof.
  induction s as [|c s IH]; intros before after; rewrite cut_unfold.
  - destruct (startswith EmptyString sep) eqn:Hsw; [|discriminate].
    intros H. inversion H; subst. split; [|intros; simpl; lia].
    now apply startswith_drop.
  - destruct (startswith (String c s) sep) eqn:Hsw.
    + intros H. inversion H; subst. split; [|intros; simpl; lia].
      now apply startswith_drop.
    + destruct (cut s sep) as [[before0 after0]|] eqn:Hcut; [|discriminate].
      intros H. inversion H; subst.
      destruct (IH _ _ eq_refl) as [Hs Hmin]. split.
      * simpl. now rewrite <- Hs.
      * intros [|c' b] a Hb; simpl in Hb.
        -- rewrite Hb, startswith_app in Hsw. discriminate.
        -- inversion Hb; subst c'. simpl. apply le_n_S.
           apply (Hmin b a). assumption.
Qed.

Lemma cut_found s sep :
  contains s sep = true -> exists before after, cut s sep = Some (before, after).
Proof.
  induction s as [|c s IH]; rewrite contains_unfold, cut_unfold; intros H;
    apply orb_true_iff in H; destruct H as [H | H]; try discriminate.
  - rewrite H. now eexists _, _.
  - rewrite H. now eexists _, _.
  - destruct (startswith (String c s) sep); [now eexists _, _|].
    destruct (IH H) as [before [after ->]]. now eexists _, _.
Qed.

Lemma length_append s t :
  String.length (s ++ t) = String.length s + String.length t.
Proof. induction s as [|c s IH]; simpl; [reflexivity | now rewrite IH]. Qed.

Lemma append_assoc s t u : ((s ++ t) ++ u = s ++ (t ++ u))%string.
Proof. induction s as [|c s IH]; simpl; [reflexivity | now rewrite IH]. Qed.

Lemma truthy_nonempty s : s <> EmptyString -> truthy s = true.
Proof. destruct s; [congruence | reflexivity]. Qed.

(** C8, as the code has it.  For a non-empty keyword that occurs in the
    content of the input file, [split_file_by_keyword] cuts the content at
    the leftmost occurrence into the text before it and the text after it;
    the keyword is dropped: before + keyword + after is the content, no
    occurrence starts earlier, and the keyword does not occur in the text
    before.  When both writes succeed, the text before is written to the
    first output, the text after to the second, and the two paths are
    returned.  When the first write raises, nothing is written, and when
    the second raises, the first file stays; both times [(None, None)] is
    returned.  "AAAkeywordBBB" with "keyword" is cut into "AAA" and
    "BBB". *)
Theorem split_on_keyword_found :
  forall (abspath : string -> string)
         (write_text : list (string * string) -> string -> string
                       -> result unit)
         (content keyword out1 out2 : string),
    keyword <> EmptyString ->
    occurs keyword content ->
    (exists before after,
        split_file_by_keyword_body (Some content) keyword
        = Ok (Some (before, after))
        /\ content = (before ++ keyword ++ after)%string
        /\ (forall b a, content = (b ++ keyword ++ a)%string ->
                        String.length before <= String.length b)
        /\ ~ occurs keyword before
        /\ (write_text [] out1 before = Ok tt ->
            write_text [(out1, before)] out2 after = Ok tt ->
            split_file_by_keyword abspath write_text (Some content) keyword
              out1 out2
            = ([(out1, before); (out2, after)],
               Some (abspath out1, abspath out2)))
        /\ ((exists e, write_text [] out1 before = Raise e) ->
            split_file_by_keyword abspath write_text (Some content) keyword
              out1 out2
            = ([], None))
        /\ (write_text [] out1 before = Ok tt ->
            (exists e, write_text [(out1, before)] out2 after = Raise e) ->
            split_file_by_keyword abspath write_text (Some content) keyword
              out1 out2
            = ([(out1, before)], None)))
    /\ split_file_by_keyword_body (Some "AAAkeywordBBB"%string) "keyword"
       = Ok (Some ("AAA"%string, "BBB"%string)).
Proof.
  intros abspath write_text content keyword out1 out2 Hkw Hocc.
  split; [|reflexivity].
  apply contains_occurs in Hocc.
  destruct (cut_found _ _ Hocc) as [before [after Hcut]].
  destruct (cut_leftmost _ _ _ _ Hcut) as [Hcontent Hmin].
  assert (Hbody : split_file_by_keyword_body (Some content) keyword
                  = Ok (Some (before, after))).
  { unfold split_file_by_keyword_body, split_once.
    cbn [bind]. rewrite Hocc. cbn [negb].
    rewrite (truthy_nonempty _ Hkw), Hcut. reflexivity. }
  exists before, after.
  split; [exact Hbody|]. split; [exact Hcontent|]. split; [exact Hmin|].
  split; [|split; [|split]].
  - intros [x [y Hbefore]].
    assert (Hlen : String.length before <= String.length x).
    { apply (Hmin x (y ++ keyword ++ after)%string).
      rewrite Hcontent at 1. rewrite Hbefore at 1.
      now rewrite !append_assoc. }
    rewrite Hbefore in Hlen at 1. rewrite !length_append in Hlen.
    destruct keyword; [congruence | simpl in Hlen; lia].
  - intros H1 H2. unfold split_file_by_keyword.
    now rewrite Hbody, H1, H2.
  - intros [e H1]. unfold split_file_by_keyword. now rewrite Hbody, H1.
  - intros H1 [e H2]. unfold split_file_by_keyword.
    now rewrite Hbody, H1, H2.
Qed.

Lemma split_on_keyword_found_witness :
  "Country Of Sale"%string <> EmptyString
  /\ occurs "Country Of Sale" "Total 5 Country Of Sale US"
  /\ exists before after,
       split_file_by_keyword (fun path => path) (fun _ _ _ => Ok tt)
         (Some "Total 5 Country Of Sale US"%string) "Country Of Sale"
         "part1.csv" "part2.csv"
       = ([("part1.csv"%string, before); ("part2.csv"%string, after)],
          Some ("part1.csv"%string, "part2.csv"%string))
       /\ "Total 5 Country Of Sale US"%string
          = (before ++ "Country Of Sale" ++ after)%string.
Proof.
  assert (Hkw : "Country Of Sale"%string <> EmptyString) by discriminate.
  assert (Hocc : occurs "Country Of Sale" "Total 5 Country Of Sale US").
  { exists "Total 5 "%string, " US"%string. reflexivity. }
  split; [assumption|]. split; [assumption|].
  destruct (proj1 (split_on_keyword_found (fun path => path)
                     (fun _ _ _ => Ok tt)
                     "Total 5 Country Of Sale US" "Country Of Sale"
                     "part1.csv" "part2.csv" Hkw Hocc))
    as [before [after [_ [Hcontent [_ [_ [Hsplit _]]]]]]].
  exists before, after. split; [|exact Hcontent].
  apply Hsplit; reflexivity.
Defined.

(** C8 as stated fails for the empty keyword: it occurs in every text, the
    test [keyword not in content] lets it pass, [split] raises on the empty
    separator and the handler returns [(None, None)]: nothing is written.
    It also fails where an output cannot be written: with the empty path
    as first output, "AAAkeywordBBB" and "keyword" give [(None, None)]. *)
Lemma split_on_empty_keyword :
  occurs EmptyString "AAA"
  /\ split_file_by_keyword (fun path => path) (fun _ _ _ => Ok tt)
       (Some "AAA"%string) EmptyString "part1.csv" "part2.csv"
     = ([], None)
  /\ split_file_by_keyword (fun path => path) write_unless_empty_path
       (Some "AAAkeywordBBB"%string) "keyword" "" "part2.csv"
     = ([], None).
Proof.
  split; [|split; reflexivity].
  exists EmptyString, "AAA"%string. reflexivity.
Qed.

(** C9.  When the keyword does not occur in the content,
    [split_file_by_keyword] leaves the [try] block by its early return,
    without an exception, writes nothing and returns [(None, None)]; so
    for "AAABBB" and "zzz". *)
Theorem split_on_keyword_absent :
  forall (abspath : string -> string)
         (write_text : list (string * string) -> string -> string
                       -> result unit)
         (content keyword out1 out2 : string),
    ~ occurs keyword content ->
    split_file_by_keyword_body (Some content) keyword = Ok None
    /\ split_file_by_keyword abspath write_text (Some content) keyword
         out1 out2
       = ([], None)
    /\ split_file_by_keyword abspath write_text (Some "AAABBB"%string) "zzz"
         out1 out2
       = ([], None).
Proof.
  intros abspath write_text content keyword out1 out2 Habsent.
  assert (Hbody : split_file_by_keyword_body (Some content) keyword = Ok None).
  { unfold split_file_by_keyword_body. cbn [bind].
    destruct (contains content keyword) eqn:Hc; [|reflexivity].
    apply contains_occurs in Hc. contradiction. }
  split; [exact Hbody|]. split; [|reflexivity].
  unfold split_file_by_keyword. now rewrite Hbody.
Qed.

Lemma split_on_keyword_absent_witness :
  ~ occurs "zzz" "AAABBB"
  /\ split_file_by_keyword_body (Some "AAABBB"%string) "zzz" = Ok None.
Proof.
  assert (Habsent : ~ occurs "zzz" "AAABBB").
  { intros Hocc. apply contains_occurs in Hocc. discriminate Hocc. }
  split; [assumption|].
  exact (proj1 (split_on_keyword_absent (fun path => path)
                  (fun _ _ _ => Ok tt) "AAABBB" "zzz"
                  "part1.csv" "part2.csv" Habsent)).
Defined.

(** ** The lines around the marker line *)

Lemma nth_error_middle {X : Type} (front : list X) x back k :
  nth_error (front ++ x :: back) (length front + k) = nth_error (x :: back) k.
Proof. induction front as [|y front IH]; simpl; [reflexivity | exact IH]. Qed.

Lemma skipn_middle {X : Type} (front back : list X) k :
  skipn (length front + k) (front ++ back) = skipn k back.
Proof. induction front as [|y front IH]; simpl; [reflexivity | exact IH]. Qed.

Lemma firstn_front {X : Type} (front back : list X) :
  firstn (length front) (front ++ back) = front.
Proof.
  induction front as [|y front IH]; simpl; [reflexivity | now rewrite IH].
Qed.

Lemma lines_around lines s :
  s < length lines ->
  lines = firstn s lines ++ line_at lines s :: skipn (s + 1) lines.
Proof.
  intros Hs. symmetry. rewrite Nat.add_1_r.
  apply firstn_skipn_middle. now apply nth_error_nth'.
Qed.

Lemma first_sentinel_front lines s :
  first_sentinel lines s ->
  Forall (fun line => startswith line Total_Rows = false) (firstn s lines).
Proof.
  intros [_ Hbefore]. apply Forall_forall. intros line Hin.
  apply In_nth_error in Hin. destruct Hin as [j Hj].
  assert (Hlt : j < s).
  { pose proof (proj1 (nth_error_Some (firstn s lines) j)) as H.
    rewrite Hj in H. specialize (H ltac:(discriminate)).
    pose proof (firstn_le_length s lines). lia. }
  apply (Hbefore j); [exact Hlt|].
  now rewrite nth_error_firstn, (proj2 (Nat.ltb_lt _ _) Hlt) in Hj.
Qed.

Lemma first_sentinel_middle front x back :
  Forall (fun line => startswith line Total_Rows = false) front ->
  startswith x Total_Rows = true ->
  first_sentinel (front ++ x :: back) (length front).
Proof.
  intros Hfront Hx. split.
  - exists x. split; [|exact Hx].
    rewrite <- (Nat.add_0_r (length front)) at 1.
    now rewrite nth_error_middle.
  - intros j line Hj Hnth. rewrite nth_error_app1 in Hnth by exact Hj.
    rewrite Forall_forall in Hfront. apply Hfront.
    now apply nth_error_In with (n := j).
Qed.

(** The branch with marker line, on lines given as the lines before the
    marker line, the marker line and the lines after it. *)
Lemma split_at_total_row_around {P : Pandas} a front x back :
  split_at_total_row ((a :: front) ++ x :: back) (S (length front))
  = (df_part1 <- read_csv (part_content a front) ;;
     total_rows <- getitem (split_char tab x) 1 ;;
     match back with
     | [] => Ok (df_part1, total_rows, empty_frame)
     | b :: rest =>
         df_part2 <- read_csv (part_content b rest) ;;
         Ok (df_part1, total_rows, df_part2)
     end).
Proof.
  unfold split_at_total_row. rewrite part2_data_slice.
  change (getitem ((a :: front) ++ x :: back) 0) with (@Ok string a).
  cbn [bind].
  replace (slice ((a :: front) ++ x :: back) 1 (S (length front))) with front.
  2:{ unfold slice. simpl. rewrite Nat.sub_0_r. symmetry. apply firstn_front. }
  assert (Hx : getitem ((a :: front) ++ x :: back) (S (length front)) = Ok x).
  { unfold getitem. change (S (length front)) with (length (a :: front)).
    rewrite <- (Nat.add_0_r (length (a :: front))).
    now rewrite nth_error_middle. }
  rewrite Hx.
  assert (Hb : getitem ((a :: front) ++ x :: back) (S (length front) + 1)
               = getitem back 0).
  { unfold getitem. change (S (length front)) with (length (a :: front)).
    now rewrite nth_error_middle. }
  rewrite Hb.
  assert (Hrest : slice_from ((a :: front) ++ x :: back) (S (length front) + 2)
                  = skipn 1 back).
  { unfold slice_from. change (S (length front)) with (length (a :: front)).
    now rewrite skipn_middle. }
  rewrite Hrest.
  destruct (read_csv (part_content a front)) as [df1|e]; cbn [bind];
    [|reflexivity].
  destruct (getitem (split_char tab x) 1) as [value|e]; cbn [bind];
    [|reflexivity].
  rewrite length_app.
  destruct back as [|b rest];
    destruct (_ <? _) eqn:Hnext; try reflexivity.
  - apply Nat.ltb_lt in Hnext. simpl in Hnext. lia.
  - apply Nat.ltb_ge in Hnext. simpl in Hnext. lia.
Qed.

(** ** The reconstituted text *)

Lemma second_field_keeps (q : ascii -> bool) line value :
  second_field line = Some value ->
  any_char q line = false -> any_char q value = false.
Proof.
  intros Hvalue Hline. apply nth_error_In in Hvalue.
  pose proof (split_by_keeps (Ascii.eqb tab) q line Hline) as Hall.
  rewrite Forall_forall in Hall. now apply Hall.
Qed.

Lemma second_field_no_tab line value :
  second_field line = Some value -> any_char (Ascii.eqb tab) value = false.
Proof.
  intros Hvalue. apply nth_error_In in Hvalue.
  pose proof (split_by_free (Ascii.eqb tab) line) as Hall.
  rewrite Forall_forall in Hall. now apply Hall.
Qed.

Lemma sentinel_line_fields value :
  any_char (Ascii.eqb tab) value = false ->
  split_char tab (Total_Rows ++ TAB ++ value) = [Total_Rows; value].
Proof.
  intros Hfree. unfold split_char.
  change (Total_Rows ++ TAB ++ value)%string
    with (Total_Rows ++ String tab value)%string.
  rewrite split_by_app_sep; [|reflexivity | reflexivity].
  now rewrite split_by_whole.
Qed.

Lemma sentinel_line_clean line value :
  clean line -> second_field line = Some value ->
  value <> EmptyString -> rstrip value = value ->
  clean (Total_Rows ++ TAB ++ value).
Proof.
  intros Hline Hvalue Hne Hr. repeat split.
  - unfold strip.
    change (lstrip (Total_Rows ++ TAB ++ value))
      with (Total_Rows ++ TAB ++ value)%string.
    rewrite <- (append_assoc Total_Rows TAB value).
    now apply rstrip_app_nonempty.
  - rewrite !any_char_app.
    rewrite (second_field_keeps is_newline line value Hvalue
               (clean_no_newline _ Hline)).
    reflexivity.
Qed.

Lemma reconstitute_lines a front x back value :
  Forall clean (a :: front) -> clean x -> Forall clean back ->
  fits_header (a :: front) -> fits_header back ->
  second_field x = Some value ->
  value <> EmptyString -> rstrip value = value ->
  read_lines (reconstitute (tokenize a front, value,
                            match back with
                            | [] => empty_table
                            | b :: rest => tokenize b rest
                            end))
  = (a :: front) ++ (Total_Rows ++ TAB ++ value)%string :: back.
Proof.
  intros Hfront Hx Hback Hfit1 Hfit2 Hvalue Hne Hr.
  unfold reconstitute.
  rewrite (table_lines_tokenize a front Hfit1).
  assert (Hsecond : table_lines match back with
                                | [] => empty_table
                                | b :: rest => tokenize b rest
                                end = back).
  { destruct back as [|b rest]; [reflexivity|].
    now apply table_lines_tokenize. }
  rewrite Hsecond. apply read_lines_join.
  apply Forall_app. split; [exact Hfront|].
  constructor; [|exact Hback].
  now apply sentinel_line_clean with (line := x).
Qed.

(** C6, as the code has it, with the tables of the specification.  When
    the first marker line is not the first line, no data line has more
    fields than the header of its table, and the value is not empty and
    does not end in whitespace, then [read_csv_into_parts] on the
    reconstituted text (lines of the first table, the line
    'Total_Rows' + tab + value, lines of the second table) returns the
    same two tables and the same value. *)
Theorem recover_reconstituted :
  forall (content : string) (s : nat) (first_table second_table : Table)
         (value : string),
    let lines := read_lines content in
    first_sentinel lines s ->
    1 <= s ->
    fits_header (firstn s lines) ->
    fits_header (skipn (s + 1) lines) ->
    value <> EmptyString ->
    rstrip value = value ->
    read_csv_into_parts (P := SpecTables) content
    = Ok (first_table, value, second_table) ->
    read_csv_into_parts (P := SpecTables)
      (reconstitute (first_table, value, second_table))
    = Ok (first_table, value, second_table).
Proof.
  intros content s first_table second_table value lines
    Hs Hpos Hfit1 Hfit2 Hne Hr Hrun.
  pose proof (read_lines_clean content) as Hclean. fold lines in Hclean.
  pose proof (first_sentinel_lt _ _ Hs) as Hlt.
  pose proof (first_sentinel_front _ _ Hs) as Hfront.
  pose proof (lines_around lines s Hlt) as Hlines.
  assert (Hlen : length (firstn s lines) = s)
    by (rewrite length_firstn; lia).
  destruct Hs as [[x0 [Hx0 Hmark]] Hbefore].
  assert (Hx : line_at lines s = x0).
  { unfold line_at. now apply nth_error_nth. }
  rewrite Hx in Hlines. clear Hx.
  remember (skipn (s + 1) lines) as back eqn:Hback.
  destruct (firstn s lines) as [|a front] eqn:Hfirst;
    [simpl in Hlen; lia|].
  simpl in Hlen.
  rewrite Hlines in Hclean. apply Forall_app in Hclean.
  destruct Hclean as [Hcfront Hcrest].
  inversion Hcrest as [|? ? Hcx Hcback]; subst x l.
  (* the first run *)
  assert (Hsent : first_sentinel lines s).
  { split; [now exists x0 | exact Hbefore]. }
  rewrite (read_csv_into_parts_marked _ _ Hsent) in Hrun. fold lines in Hrun.
  rewrite Hlines, <- Hlen, split_at_total_row_around in Hrun.
  change (@read_csv SpecTables) with read_table in Hrun.
  rewrite read_table_part_content in Hrun;
    [| now inversion Hcfront | now inversion Hcfront].
  cbn [bind] in Hrun.
  destruct (getitem (split_char tab x0) 1) as [value0|e] eqn:Hfield;
    cbn [bind] in Hrun; [|discriminate].
  assert (Hvalue : second_field x0 = Some value).
  { unfold second_field. unfold getitem in Hfield.
    destruct (nth_error (split_char tab x0) 1) as [v|]; [|discriminate].
    inversion Hfield; subst v.
    destruct back as [|b rest].
    - simpl in Hrun. congruence.
    - rewrite read_table_part_content in Hrun;
        [| now inversion Hcback | now inversion Hcback].
      simpl in Hrun. congruence. }
  assert (Htables : first_table = tokenize a front
                    /\ second_table = match back with
                                      | [] => empty_table
                                      | b :: rest => tokenize b rest
                                      end).
  { destruct back as [|b rest].
    - simpl in Hrun. inversion Hrun. now split.
    - rewrite read_table_part_content in Hrun;
        [| now inversion Hcback | now inversion Hcback].
      simpl in Hrun. inversion Hrun. now split. }
  destruct Htables as [-> ->]. clear Hrun Hfield.
  (* the second run *)
  assert (Hlines2 := reconstitute_lines a front x0 back value
                       Hcfront Hcx Hcback Hfit1 Hfit2 Hvalue Hne Hr).
  assert (Hsent2 : first_sentinel
                     ((a :: front) ++ (Total_Rows ++ TAB ++ value)%string :: back)
                     (length (a :: front))).
  { apply first_sentinel_middle; [exact Hfront | apply startswith_app]. }
  rewrite <- Hlines2 in Hsent2.
  rewrite (read_csv_into_parts_marked _ _ Hsent2), Hlines2.
  change (length (a :: front)) with (S (length front)).
  rewrite split_at_total_row_around.
  change (@read_csv SpecTables) with read_table.
  rewrite read_table_part_content;
    [| now inversion Hcfront | now inversion Hcfront].
  cbn [bind].
  rewrite (sentinel_line_fields value (second_field_no_tab _ _ Hvalue)).
  change (getitem [Total_Rows; value] 1) with (@Ok string value).
  cbn [bind].
  destruct back as [|b rest]; [reflexivity|].
  rewrite read_table_part_content;
    [reflexivity | now inversion Hcback | now inversion Hcback].
Qed.

Lemma recover_reconstituted_witness :
  first_sentinel (read_lines scenario_A) 2
  /\ 1 <= 2
  /\ fits_header (firstn 2 (read_lines scenario_A))
  /\ fits_header (skipn (2 + 1) (read_lines scenario_A))
  /\ "2"%string <> EmptyString
  /\ rstrip "2" = "2"%string
  /\ read_csv_into_parts (P := SpecTables) scenario_A
     = Ok (tokenize ("H1" ++ TAB ++ "H2") [("a" ++ TAB ++ "b")%string],
           "2"%string,
           tokenize ("H3" ++ TAB ++ "H4") [("c" ++ TAB ++ "d")%string])
  /\ read_csv_into_parts (P := SpecTables)
       (reconstitute
          (tokenize ("H1" ++ TAB ++ "H2") [("a" ++ TAB ++ "b")%string],
           "2"%string,
           tokenize ("H3" ++ TAB ++ "H4") [("c" ++ TAB ++ "d")%string]))
     = Ok (tokenize ("H1" ++ TAB ++ "H2") [("a" ++ TAB ++ "b")%string],
           "2"%string,
           tokenize ("H3" ++ TAB ++ "H4") [("c" ++ TAB ++ "d")%string]).
Proof.
  assert (Hs : first_sentinel (read_lines scenario_A) 2)
    by first_sentinel_by_computation.
  assert (Hpos : 1 <= 2) by lia.
  assert (Hfit1 : fits_header (firstn 2 (read_lines scenario_A)))
    by (vm_compute; repeat constructor).
  assert (Hfit2 : fits_header (skipn (2 + 1) (read_lines scenario_A)))
    by (vm_compute; repeat constructor).
  assert (Hne : "2"%string <> EmptyString) by discriminate.
  assert (Hr : rstrip "2" = "2"%string) by reflexivity.
  assert (Hrun : read_csv_into_parts (P := SpecTables) scenario_A
     = Ok (tokenize ("H1" ++ TAB ++ "H2") [("a" ++ TAB ++ "b")%string],
           "2"%string,
           tokenize ("H3" ++ TAB ++ "H4") [("c" ++ TAB ++ "d")%string]))
    by reflexivity.
  repeat (split; [assumption|]).
  exact (recover_reconstituted scenario_A 2 _ _ "2"%string
           Hs Hpos Hfit1 Hfit2 Hne Hr Hrun).
Defined.

(** C6 as stated fails when the marker line is the first line: it is then
    also the header of the first table, the reconstituted text has it
    twice, and the second run reads the second copy as header of the
    second table. *)
Lemma recover_reconstituted_marker_first :
  first_sentinel (read_lines marker_first) 0
  /\ read_csv_into_parts (P := SpecTables) marker_first
     = Ok ({| columns := ["Total_Rows"; "2"]%string; rows := [] |},
           "2"%string,
           {| columns := ["H3"; "H4"]%string;
              rows := [[("H3", "c"); ("H4", "d")]]%string |})
  /\ read_csv_into_parts (P := SpecTables)
       (reconstitute
          ({| columns := ["Total_Rows"; "2"]%string; rows := [] |},
           "2"%string,
           {| columns := ["H3"; "H4"]%string;
              rows := [[("H3", "c"); ("H4", "d")]]%string |}))
     = Ok ({| columns := ["Total_Rows"; "2"]%string; rows := [] |},
           "2"%string,
           {| columns := ["Total_Rows"; "2"]%string;
              rows := [[("Total_Rows", "H3"); ("2", "H4")];
                       [("Total_Rows", "c"); ("2", "d")]]%string |})
  /\ {| columns := ["H3"; "H4"]%string;
        rows := [[("H3", "c"); ("H4", "d")]]%string |}
     <> {| columns := ["Total_Rows"; "2"]%string;
           rows := [[("Total_Rows", "H3"); ("2", "H4")];
                    [("Total_Rows", "c"); ("2", "d")]]%string |}.
Proof.
  split; [|split; [|split]].
  - split.
    + eexists. split; reflexivity.
    + intros j line Hj. lia.
  - vm_compute. reflexivity.
  - vm_compute. reflexivity.
  - discriminate.
Qed.

(** A data line wider than its header is cut when read, and the second run
    reads another first table. *)
Lemma recover_reconstituted_wide_row :
  read_csv_into_parts (P := SpecTables) wide_row
  = Ok ({| columns := ["H1"; "H2"]%string;
           rows := [[("H1", "a"); ("H2", "")]]%string |},
        "1"%string, empty_table)
  /\ read_csv_into_parts (P := SpecTables)
       (reconstitute
          ({| columns := ["H1"; "H2"]%string;
              rows := [[("H1", "a"); ("H2", "")]]%string |},
           "1"%string, empty_table))
     = Ok ({| columns := ["H1"; "H2"]%string;
              rows := [[("H1", "a")]]%string |},
           "1"%string, empty_table).
Proof. split; vm_compute; reflexivity. Qed.

(** An empty value is lost when the reconstituted marker line is stripped,
    and the second run fails. *)
Lemma recover_reconstituted_empty_value :
  read_csv_into_parts (P := SpecTables) empty_value
  = Ok ({| columns := ["H"]%string; rows := [] |}, EmptyString, empty_table)
  /\ read_csv_into_parts (P := SpecTables)
       (reconstitute
          ({| columns := ["H"]%string; rows := [] |}, EmptyString, empty_table))
     = Raise ValueError.
Proof. split; vm_compute; reflexivity. Qed.

(** * Further properties of the two routines *)

(** X1.  The loop of both routines finds exactly the first line that
    starts with 'Total_Rows', and finds none exactly when no line starts
    with it. *)
Theorem find_total_row_first_marker :
  forall (lines : list string),
    (forall s, find_total_row 0 lines = Some s <-> first_sentinel lines s)
    /\ (find_total_row 0 lines = None <-> no_sentinel lines).
Proof.
  intros lines. split.
  - intros s. split.
    + intros Hfind.
      destruct (find_total_row_sound lines 0 s Hfind) as [s' [-> Hs']].
      exact Hs'.
    + intros Hs. exact (find_total_row_complete lines 0 s Hs).
  - split; apply find_total_row_none.
Qed.

Lemma clean_ends line :
  clean line -> lstrip line = line /\ rstrip line = line.
Proof.
  intros [Ht [Hs _]]. unfold strip in Hs.
  assert (Hr : rstrip line = line).
  { rewrite <- Hs at 1. rewrite rstrip_idempotent. exact Hs. }
  split; [|exact Hr].
  destruct (lstrip_cases line) as [He | [c [s' [Hl Hc]]]].
  - rewrite He in Hs. simpl in Hs. subst line. discriminate Ht.
  - rewrite Hl in Hs.
    destruct (rstrip_keeps_head c s' Hc) as [r Hr']. rewrite Hr' in Hs.
    subst line. simpl. now rewrite Hc.
Qed.

(** X2.  Every line that the two routines work on is non-empty, has no
    whitespace at either end and holds no line break. *)
Theorem read_lines_yields_trimmed_lines :
  forall (content line : string),
    In line (read_lines content) ->
    line <> EmptyString /\ lstrip line = line /\ rstrip line = line
    /\ any_char is_newline line = false.
Proof.
  intros content line Hin.
  pose proof (read_lines_clean content) as Hall.
  rewrite Forall_forall in Hall. specialize (Hall line Hin).
  destruct (clean_ends line Hall) as [Hl Hr].
  destruct Hall as [Ht [_ Hn]].
  repeat split; try assumption.
  intros ->. discriminate Ht.
Qed.

Lemma read_lines_yields_trimmed_lines_witness :
  In ("a" ++ TAB ++ "b")%string (read_lines scenario_A)
  /\ lstrip ("a" ++ TAB ++ "b") = ("a" ++ TAB ++ "b")%string
  /\ rstrip ("a" ++ TAB ++ "b") = ("a" ++ TAB ++ "b")%string.
Proof.
  assert (Hin : In ("a" ++ TAB ++ "b")%string (read_lines scenario_A))
    by (vm_compute; tauto).
  split; [exact Hin|].
  pose proof (read_lines_yields_trimmed_lines scenario_A _ Hin) as H.
  split; [exact (proj1 (proj2 H)) | exact (proj1 (proj2 (proj2 H)))].
Defined.

(** X3.  Lines that are non-empty, stripped and without line break are
    read back as they are from the text that joins them with line feeds:
    reading is the inverse of joining on such lines. *)
Theorem read_lines_round_trip :
  forall (lines : list string),
    Forall clean lines -> read_lines (join NL lines) = lines.
Proof. exact read_lines_join. Qed.

Lemma read_lines_round_trip_witness :
  Forall clean ["H1"; "Total_Rows"; "x y"]%string
  /\ read_lines (join NL ["H1"; "Total_Rows"; "x y"]%string)
     = ["H1"; "Total_Rows"; "x y"]%string.
Proof.
  assert (H : Forall clean ["H1"; "Total_Rows"; "x y"]%string)
    by (repeat constructor).
  split; [exact H | exact (read_lines_round_trip _ H)].
Defined.

Section Agreement.

Context {P : Pandas}.

Lemma split_broken_csv_marked content s :
  first_sentinel (read_lines content) s ->
  s + 1 < length (read_lines content) ->
  split_broken_csv content = split_at_total_row (read_lines content) s.
Proof.
  intros Hs Hnext. unfold split_broken_csv, split_at_total_row.
  rewrite (find_total_row_complete _ 0 s Hs). cbn [Nat.add].
  rewrite (proj2 (Nat.ltb_lt _ _) Hnext), part2_data_slice.
  reflexivity.
Qed.

Lemma try_except_ok (A : Type) (body : result A) handler (a : A) :
  (forall e, handler e <> Ok a) ->
  try_except body handler = Ok a <-> body = Ok a.
Proof.
  intros Hh. destruct body as [a'|e]; simpl; [tauto|].
  split; [intros H; now apply Hh in H | discriminate].
Qed.

(** X4.  [split_broken_csv] returns a result exactly when
    [read_csv_into_parts] returns it and the marker line is there and is
    not the last line: on those inputs the two routines agree, and
    [read_csv_into_parts] only adds results. *)
Theorem split_broken_csv_agrees :
  forall (content : string) (r : parts),
    split_broken_csv content = Ok r
    <-> (read_csv_into_parts content = Ok r
         /\ exists s, first_sentinel (read_lines content) s
                      /\ s + 1 < length (read_lines content)).
Proof.
  intros content r. split.
  - intros Hsplit.
    destruct (find_total_row 0 (read_lines content)) as [k|] eqn:Hfind.
    2:{ unfold split_broken_csv in Hsplit. rewrite Hfind in Hsplit.
        discriminate. }
    destruct (find_total_row_sound _ _ _ Hfind) as [s [_ Hs]].
    pose proof (first_sentinel_lt _ _ Hs) as Hlt.
    destruct (Nat.lt_ge_cases (s + 1) (length (read_lines content)))
      as [Hnext | Hlast].
    + split; [|now exists s].
      rewrite (read_csv_into_parts_marked _ _ Hs).
      rewrite <- (split_broken_csv_marked content s Hs Hnext), Hsplit.
      reflexivity.
    + destruct (split_broken_csv_sentinel_last P content s Hs) as [e He];
        [lia|]. rewrite He in Hsplit. discriminate.
  - intros [Hrun [s [Hs Hnext]]].
    rewrite (read_csv_into_parts_marked _ _ Hs) in Hrun.
    apply try_except_ok in Hrun; [|discriminate].
    now rewrite (split_broken_csv_marked content s Hs Hnext).
Qed.

(** X5.  With a marker line whose first part the table reader accepts,
    [split_broken_csv] raises IndexError, not ValueError, when the marker
    line has no second field or is the last line. *)
Theorem split_broken_csv_index_error :
  forall (content : string) (s : nat) (df1 : DataFrame),
    let lines := read_lines content in
    first_sentinel lines s ->
    read_csv (part_content (line_at lines 0) (slice lines 1 s)) = Ok df1 ->
    second_field (line_at lines s) = None \/ s + 1 = length lines ->
    split_broken_csv content = Raise IndexError.
Proof.
  intros content s df1 lines Hs H1 Hcases. subst lines.
  pose proof (first_sentinel_lt _ _ Hs) as Hlt.
  unfold split_broken_csv. cbv zeta.
  rewrite (find_total_row_complete _ 0 s Hs). cbn [Nat.add].
  rewrite !getitem_line_at by lia. cbn [bind].
  rewrite H1. cbn [bind].
  destruct (second_field (line_at (read_lines content) s))
    as [value|] eqn:Hvalue.
  - destruct Hcases as [Hnone | Hlast]; [discriminate|].
    rewrite (second_field_getitem _ _ Hvalue). cbn [bind].
    now rewrite getitem_out_of_range by lia.
  - unfold second_field in Hvalue. unfold getitem at 1.
    now rewrite Hvalue.
Qed.

End Agreement.

Lemma split_broken_csv_agrees_witness :
  split_broken_csv (P := SpecTables) scenario_A
  = Ok (tokenize ("H1" ++ TAB ++ "H2") [("a" ++ TAB ++ "b")%string],
        "2"%string,
        tokenize ("H3" ++ TAB ++ "H4") [("c" ++ TAB ++ "d")%string])
  /\ read_csv_into_parts (P := SpecTables) scenario_A
     = Ok (tokenize ("H1" ++ TAB ++ "H2") [("a" ++ TAB ++ "b")%string],
           "2"%string,
           tokenize ("H3" ++ TAB ++ "H4") [("c" ++ TAB ++ "d")%string]).
Proof.
  assert (H : split_broken_csv (P := SpecTables) scenario_A
              = Ok (tokenize ("H1" ++ TAB ++ "H2") [("a" ++ TAB ++ "b")%string],
                    "2"%string,
                    tokenize ("H3" ++ TAB ++ "H4") [("c" ++ TAB ++ "d")%string]))
    by reflexivity.
  split; [exact H|].
  exact (proj1 (proj1 (split_broken_csv_agrees (P := SpecTables)
                         scenario_A _) H)).
Defined.

Lemma split_broken_csv_index_error_witness :
  first_sentinel (read_lines marker_last) 1
  /\ read_csv (Pandas := SpecTables)
       (part_content (line_at (read_lines marker_last) 0)
          (slice (read_lines marker_last) 1 1))
     = Ok {| columns := ["H"]%string; rows := [] |}
  /\ split_broken_csv (P := SpecTables) marker_last = Raise IndexError.
Proof.
  assert (Hs : first_sentinel (read_lines marker_last) 1)
    by first_sentinel_by_computation.
  split; [exact Hs|]. split; [reflexivity|].
  exact (split_broken_csv_index_error (P := SpecTables) marker_last 1
           {| columns := ["H"]%string; rows := [] |} Hs eq_refl
           (or_intror eq_refl)).
Defined.

Lemma read_lines_part_content header data :
  clean header -> Forall clean data ->
  read_lines (part_content header data) = header :: data.
Proof.
  intros Hh Hd. destruct data as [|line rest].
  - change (part_content header [])
      with (header ++ String LF EmptyString)%string.
    unfold read_lines, file_lines.
    rewrite split_by_app_sep;
      [| now apply clean_no_newline | reflexivity].
    simpl. destruct Hh as [Ht [Hs _]]. rewrite Hs, Ht. simpl.
    now rewrite Hs.
  - change (part_content header (line :: rest))
      with (join NL (header :: line :: rest)).
    apply read_lines_join. now constructor.
Qed.

(** X6.  When the first marker line is not the first line, the text of the
    first part, the marker line and the text of the second part hold every
    line of the file exactly once and in order: no line is dropped or used
    twice. *)
Theorem marker_split_keeps_every_line :
  forall (content : string) (s : nat),
    let lines := read_lines content in
    first_sentinel lines s ->
    1 <= s ->
    read_lines (part_content (line_at lines 0) (slice lines 1 s))
    ++ line_at lines s
       :: (if s + 1 <? length lines
           then read_lines (part_content (line_at lines (s + 1))
                              (slice_from lines (s + 2)))
           else [])
    = lines.
Proof.
  intros content s lines Hs Hpos.
  pose proof (read_lines_clean content) as Hclean. fold lines in Hclean.
  pose proof (first_sentinel_lt _ _ Hs) as Hlt.
  rewrite read_lines_part_content;
    [| apply clean_line_at; [assumption | lia] | now apply clean_slice].
  assert (Hfront : line_at lines 0 :: slice lines 1 s = firstn s lines).
  { unfold line_at, slice. destruct lines as [|l0 rest]; [simpl in Hlt; lia|].
    destruct s as [|s']; [lia|]. simpl. now rewrite Nat.sub_0_r. }
  rewrite Hfront.
  assert (Hback : (if s + 1 <? length lines
                   then read_lines (part_content (line_at lines (s + 1))
                                      (slice_from lines (s + 2)))
                   else []) = skipn (s + 1) lines).
  { destruct (s + 1 <? length lines) eqn:Hnext.
    - apply Nat.ltb_lt in Hnext.
      rewrite read_lines_part_content;
        [| now apply clean_line_at | now apply clean_slice_from].
      unfold line_at, slice_from.
      rewrite <- (firstn_skipn 1 (skipn (s + 1) lines)).
      rewrite skipn_skipn. replace (1 + (s + 1)) with (s + 2) by lia.
      f_equal.
      destruct (skipn (s + 1) lines) as [|x rest] eqn:Hskip.
      + apply (f_equal (@length string)) in Hskip.
        rewrite length_skipn in Hskip. simpl in Hskip. lia.
      + simpl. f_equal.
        rewrite <- (Nat.add_0_r (s + 1)), <- nth_skipn, Hskip. reflexivity.
    - apply Nat.ltb_ge in Hnext. symmetry. now apply skipn_all2. }
  rewrite Hback. symmetry. apply lines_around. exact Hlt.
Qed.

Lemma marker_split_keeps_every_line_witness :
  first_sentinel (read_lines scenario_A) 2
  /\ 1 <= 2
  /\ [("H1" ++ TAB ++ "H2")%string; ("a" ++ TAB ++ "b")%string]
     ++ ("Total_Rows" ++ TAB ++ "2")%string
        :: [("H3" ++ TAB ++ "H4")%string; ("c" ++ TAB ++ "d")%string]
     = read_lines scenario_A.
Proof.
  assert (Hs : first_sentinel (read_lines scenario_A) 2)
    by first_sentinel_by_computation.
  assert (Hpos : 1 <= 2) by lia.
  split; [exact Hs|]. split; [exact Hpos|].
  exact (marker_split_keeps_every_line scenario_A 2 Hs Hpos).
Defined.

(** X7.  Without a marker line and with at least two lines, the two texts
    of the split at the middle hold every line of the file exactly once and
    in order. *)
Theorem mid_point_split_keeps_every_line :
  forall (content : string),
    let lines := read_lines content in
    let m := length lines / 2 in
    2 <= length lines ->
    read_lines (part_content (line_at lines 0) (slice lines 1 m))
    ++ read_lines (part_content (line_at lines m) (slice_from lines (m + 1)))
    = lines.
Proof.
  intros content lines m Hlen.
  pose proof (read_lines_clean content) as Hclean. fold lines in Hclean.
  assert (Hpos : 0 < m) by (apply Nat.div_str_pos; lia).
  assert (Hlt : m < length lines) by (apply Nat.div_lt; lia).
  rewrite !read_lines_part_content;
    try (apply clean_line_at; [assumption | lia]);
    try (now apply clean_slice); try (now apply clean_slice_from).
  assert (Hfront : line_at lines 0 :: slice lines 1 m = firstn m lines).
  { unfold line_at, slice. destruct lines as [|l0 rest]; [simpl in Hlt; lia|].
    destruct m as [|m']; [lia|]. simpl. now rewrite Nat.sub_0_r. }
  rewrite Hfront. symmetry. apply lines_around. exact Hlt.
Qed.

Lemma mid_point_split_keeps_every_line_witness :
  2 <= length (read_lines scenario_B)
  /\ ["h1"; "a"]%string ++ ["h2"; "b"]%string = read_lines scenario_B.
Proof.
  assert (Hlen : 2 <= length (read_lines scenario_B)) by (vm_compute; lia).
  split; [exact Hlen|].
  exact (mid_point_split_keeps_every_line scenario_B Hlen).
Defined.

Lemma contains_empty s : contains s EmptyString = true.
Proof. rewrite contains_unfold. now destruct s. Qed.

(** X8.  On an existing input file [split_file_by_keyword] writes nothing
    and returns (None, None) exactly when the keyword is empty, or does
    not occur in the content, or the write of the first output raises.
    When it returns (None, None) after a write, the keyword was found, the
    text before it is in the first output and the write of the second
    output has raised.  When the input file is missing it writes nothing
    and returns (None, None). *)
Theorem split_file_by_keyword_skips_iff :
  forall (abspath : string -> string)
         (write_text : list (string * string) -> string -> string
                       -> result unit)
         (content keyword out1 out2 : string),
    (split_file_by_keyword abspath write_text (Some content) keyword
       out1 out2
     = ([], None)
     <-> (keyword = EmptyString \/ ~ occurs keyword content
          \/ exists before after e,
               cut content keyword = Some (before, after)
               /\ write_text [] out1 before = Raise e))
    /\ (forall written,
          split_file_by_keyword abspath write_text (Some content) keyword
            out1 out2
          = (written, None) ->
          written <> [] ->
          exists before after e,
            cut content keyword = Some (before, after)
            /\ written = [(out1, before)]
            /\ write_text [] out1 before = Ok tt
            /\ write_text [(out1, before)] out2 after = Raise e)
    /\ split_file_by_keyword abspath write_text None keyword out1 out2
       = ([], None).
Proof.
  intros abspath write_text content keyword out1 out2.
  split; [|split; [|reflexivity]].
  - unfold split_file_by_keyword, split_file_by_keyword_body, split_once.
    cbn [bind]. split.
    + intros Hres. destruct keyword as [|k kw]; [now left|]. right.
      destruct (contains content (String k kw)) eqn:Hocc.
      * right. cbn [negb truthy] in Hres.
        destruct (cut_found _ _ Hocc) as [before [after Hcut]].
        rewrite Hcut in Hres. cbn [bind getitem nth_error] in Hres.
        exists before, after.
        destruct (write_text [] out1 before) as [[]|e] eqn:H1.
        -- destruct (write_text [(out1, before)] out2 after);
             discriminate Hres.
        -- now exists e.
      * left. intros Hc. apply contains_occurs in Hc. congruence.
    + intros [-> | [Habsent | [before [after [e [Hcut H1]]]]]].
      * now rewrite contains_empty.
      * destruct (contains content keyword) eqn:Hc; [|reflexivity].
        apply contains_occurs in Hc. contradiction.
      * destruct (contains content keyword); [|reflexivity]. cbn [negb].
        destruct (truthy keyword); [|reflexivity].
        rewrite Hcut. cbn [bind getitem nth_error]. now rewrite H1.
  - intros written Hres Hwritten.
    unfold split_file_by_keyword, split_file_by_keyword_body, split_once
      in Hres.
    cbn [bind] in Hres.
    destruct (contains content keyword) eqn:Hocc; cbn [negb] in Hres;
      [|inversion Hres; subst written; now contradiction Hwritten].
    destruct (truthy keyword); [|inversion Hres; subst written; now contradiction Hwritten].
    destruct (cut_found _ _ Hocc) as [before [after Hcut]].
    rewrite Hcut in Hres. cbn [bind getitem nth_error] in Hres.
    exists before, after.
    destruct (write_text [] out1 before) as [[]|e1] eqn:H1;
      [|inversion Hres; subst written; now contradiction Hwritten].
    destruct (write_text [(out1, before)] out2 after) as [[]|e2] eqn:H2;
      [discriminate Hres|].
    exists e2. inversion Hres. now repeat split.
Qed.

Lemma split_file_by_keyword_skips_iff_witness :
  split_file_by_keyword (fun path => path) write_unless_empty_path
    (Some "AAAkeywordBBB"%string) "keyword" "" "part2.csv"
  = ([], None)
  /\ split_file_by_keyword (fun path => path) write_unless_empty_path
       (Some "AAAkeywordBBB"%string) "keyword" "part1.csv" ""
     = ([("part1.csv", "AAA")]%string, None).
Proof.
  split.
  - apply (proj1 (split_file_by_keyword_skips_iff (fun path => path)
                    write_unless_empty_path "AAAkeywordBBB" "keyword"
                    "" "part2.csv")).
    right. right. exists "AAA"%string, "BBB"%string, FileNotFoundError.
    split; reflexivity.
  - reflexivity.
Defined.

(** * remove_total_rows_line *)

(** ** What the second substitution and the strip leave *)

Lemma lstrip_suffix s : exists u, s = (u ++ lstrip s)%string.
Proof.
  induction s as [|c s [u IH]]; simpl; [now exists EmptyString|].
  destruct (isspace c).
  - exists (String c u). simpl. now rewrite <- IH.
  - now exists EmptyString.
Qed.

Lemma rstrip_prefix s : exists v, s = (rstrip s ++ v)%string.
Proof.
  induction s as [|c s [v IH]]; [now exists EmptyString|].
  rewrite rstrip_cons. destruct (rstrip s) as [|a r].
  - destruct (isspace c).
    + exists (String c s). reflexivity.
    + exists v. simpl in *. now rewrite <- IH.
  - exists v. simpl in *. now rewrite <- IH.
Qed.

Lemma strip_inside s : exists u v, s = (u ++ strip s ++ v)%string.
Proof.
  destruct (lstrip_suffix s) as [u Hu].
  destruct (rstrip_prefix (lstrip s)) as [v Hv].
  exists u, v. unfold strip. now rewrite <- Hv.
Qed.

Lemma collapse_newlines_cons c s :
  collapse_newlines (String c s)
  = if Ascii.eqb c LF && startswith s NL then collapse_newlines s
    else String c (collapse_newlines s).
Proof. reflexivity. Qed.

Lemma startswith_NL s :
  startswith s NL = true -> exists s', s = String LF s'.
Proof.
  unfold NL. destruct s as [|c s']; cbn [startswith]; intros H;
    [discriminate H|].
  apply andb_true_iff in H. destruct H as [Hc _].
  apply Ascii.eqb_eq in Hc. subst c. now exists s'.
Qed.

Lemma collapse_newlines_head c s :
  exists r, collapse_newlines (String c s) = String c r.
Proof.
  revert c. induction s as [|c' s IH]; intros c.
  - rewrite collapse_newlines_cons. simpl. rewrite andb_false_r.
    now eexists.
  - rewrite collapse_newlines_cons.
    destruct (Ascii.eqb c LF && startswith (String c' s) NL) eqn:Hrun;
      [|now eexists].
    apply andb_true_iff in Hrun. destruct Hrun as [Hc Hs].
    apply Ascii.eqb_eq in Hc. subst c.
    destruct (startswith_NL _ Hs) as [s' Hs']. inversion Hs'; subst c' s'.
    apply IH.
Qed.

Lemma collapse_newlines_no_run s : forall before after,
  collapse_newlines s <> (before ++ NL ++ NL ++ after)%string.
Proof.
  induction s as [|c s IH]; intros before after.
  - destruct before; discriminate.
  - rewrite collapse_newlines_cons.
    destruct (Ascii.eqb c LF && startswith s NL) eqn:Hrun; [apply IH|].
    destruct before as [|b before]; simpl.
    + intros H. injection H as Hc Hs. subst c.
      rewrite Ascii.eqb_refl in Hrun. simpl in Hrun.
      destruct s as [|c' s']; [simpl in Hs; discriminate Hs|].
      destruct (collapse_newlines_head c' s') as [r Hr].
      rewrite Hr in Hs. injection Hs as Hc' _. subst c'.
      destruct s'; vm_compute in Hrun; discriminate Hrun.
    + intros H. injection H as Hc Hs. now apply IH in Hs.
Qed.

(** X9.  Whatever the content, the text that [remove_total_rows_line]
    returns has no whitespace at either end and no two line feeds in a
    row. *)
Theorem remove_total_rows_line_is_tidy :
  forall (content : string),
    strip (remove_total_rows_line content) = remove_total_rows_line content
    /\ ~ occurs (NL ++ NL) (remove_total_rows_line content).
Proof.
  intros content. unfold remove_total_rows_line. cbv zeta. split.
  - apply strip_idempotent.
  - intros [before [after H]].
    destruct (strip_inside (collapse_newlines (sub_total_rows 0 true content)))
      as [u [v Huv]].
    rewrite H in Huv.
    apply (collapse_newlines_no_run (sub_total_rows 0 true content)
             (u ++ before) (after ++ v)).
    rewrite Huv. rewrite !append_assoc. reflexivity.
Qed.

(** ** A content without the label *)

Lemma contains_ignorecase_unfold s literal :
  contains_ignorecase s literal
  = match skip_ignorecase literal s with
    | Some _ => true
    | None =>
        match s with
        | EmptyString => false
        | String _ s' => contains_ignorecase s' literal
        end
    end.
Proof. destruct s; reflexivity. Qed.

Lemma no_label_here s literal :
  contains_ignorecase s literal = false -> skip_ignorecase literal s = None.
Proof.
  rewrite contains_ignorecase_unfold.
  destruct (skip_ignorecase literal s); [discriminate | reflexivity].
Qed.

Lemma no_label_tail c s literal :
  contains_ignorecase (String c s) literal = false ->
  contains_ignorecase s literal = false.
Proof.
  rewrite contains_ignorecase_unfold.
  destruct (skip_ignorecase literal (String c s)); [discriminate | tauto].
Qed.

Lemma no_label_skip_while q s literal :
  contains_ignorecase s literal = false ->
  contains_ignorecase (skip_while q s) literal = false.
Proof.
  induction s as [|c s IH]; simpl; intros H; [exact H|].
  destruct (q c); [|exact H].
  apply IH. now apply no_label_tail in H.
Qed.

Lemma no_label_no_match s :
  contains_ignorecase s Total_Rows = false -> match_total_rows s = None.
Proof.
  intros H. unfold match_total_rows.
  now rewrite (no_label_here _ _ (no_label_skip_while isspace _ _ H)).
Qed.

Lemma sub_total_rows_cons bol c s :
  sub_total_rows 0 bol (String c s)
  = match (if bol then match_total_rows (String c s) else None) with
    | Some rest =>
        sub_total_rows
          (String.length (String c s) - String.length rest - 1)
          (Ascii.eqb c LF) s
    | None => String c (sub_total_rows 0 (Ascii.eqb c LF) s)
    end.
Proof. reflexivity. Qed.

Lemma sub_total_rows_no_label s : forall bol,
  contains_ignorecase s Total_Rows = false -> sub_total_rows 0 bol s = s.
Proof.
  induction s as [|c s IH]; intros bol H; [reflexivity|].
  rewrite sub_total_rows_cons, (no_label_no_match _ H).
  rewrite (IH _ (no_label_tail _ _ _ H)). now destruct bol.
Qed.

(** X10.  A content in which 'Total_Rows' does not occur, in whatever case,
    loses no character but line feeds that follow a line feed and the
    whitespace at its ends. *)
Theorem remove_total_rows_line_without_label :
  forall (content : string),
    contains_ignorecase content Total_Rows = false ->
    remove_total_rows_line content = strip (collapse_newlines content).
Proof.
  intros content H. unfold remove_total_rows_line. cbv zeta.
  now rewrite (sub_total_rows_no_label content true H).
Qed.

Lemma remove_total_rows_line_without_label_witness :
  contains_ignorecase (NL ++ scenario_B ++ NL ++ NL) Total_Rows = false
  /\ remove_total_rows_line (NL ++ scenario_B ++ NL ++ NL) = scenario_B.
Proof.
  assert (H : contains_ignorecase (NL ++ scenario_B ++ NL ++ NL) Total_Rows
              = false) by reflexivity.
  split; [exact H|].
  rewrite (remove_total_rows_line_without_label _ H). reflexivity.
Defined.

(** ** The pattern on a marker line *)

Lemma label_head_not_space b :
  Ascii.eqb (lower b) (lower "T"%char) = true -> isspace b = false.
Proof.
  destruct b as [[] [] [] [] [] [] [] []]; vm_compute; intros H;
    first [reflexivity | discriminate H].
Qed.

Lemma digit_not_space c : isdigit c = true -> isspace c = false.
Proof.
  destruct c as [[] [] [] [] [] [] [] []]; vm_compute; intros H;
    first [reflexivity | discriminate H].
Qed.

Lemma newline_is_space c : Ascii.eqb c LF = true -> isspace c = true.
Proof. intros H. apply Ascii.eqb_eq in H. now subst c. Qed.

Lemma not_space_not_newline c : isspace c = false -> Ascii.eqb c LF = false.
Proof.
  intros H. destruct (Ascii.eqb c LF) eqn:Hc; [|reflexivity].
  apply newline_is_space in Hc. congruence.
Qed.

Lemma all_chars_cons q c s :
  all_chars q (String c s) <-> q c = true /\ all_chars q s.
Proof.
  unfold all_chars. simpl. rewrite orb_false_iff, negb_false_iff. tauto.
Qed.

Lemma skip_while_all q w rest :
  all_chars q w -> skip_while q (w ++ rest) = skip_while q rest.
Proof.
  induction w as [|c w IH]; intros H; [reflexivity|].
  apply all_chars_cons in H. destruct H as [Hc Hw].
  simpl. now rewrite Hc, (IH Hw).
Qed.

Lemma skip_while_all_nil q w : all_chars q w -> skip_while q w = EmptyString.
Proof.
  induction w as [|c w IH]; intros H; [reflexivity|].
  apply all_chars_cons in H. destruct H as [Hc Hw].
  simpl. now rewrite Hc, (IH Hw).
Qed.

Lemma skip_ignorecase_app literal : forall label rest,
  skip_ignorecase literal label = Some EmptyString ->
  skip_ignorecase literal (label ++ rest) = Some rest.
Proof.
  induction literal as [|a literal IH]; intros label rest H; simpl in *.
  - inversion H; subst. reflexivity.
  - destruct label as [|b label]; [discriminate|]. simpl.
    destruct (Ascii.eqb (lower b) (lower a)); [|discriminate].
    now apply IH.
Qed.

Lemma label_head label :
  skip_ignorecase Total_Rows label = Some EmptyString ->
  exists b t, label = String b t /\ isspace b = false.
Proof.
  destruct label as [|b t]; [discriminate|]. intros H.
  exists b, t. split; [reflexivity|].
  apply label_head_not_space.
  unfold Total_Rows in H. cbn [skip_ignorecase] in H.
  destruct (Ascii.eqb (lower b) (lower "T")); [reflexivity | discriminate].
Qed.

Lemma one_or_more_all q w rest :
  w <> EmptyString -> all_chars q w ->
  one_or_more q (w ++ rest) = Some (skip_while q rest).
Proof.
  intros Hne H. destruct w as [|c w]; [congruence|].
  pose proof H as H'. apply all_chars_cons in H'. destruct H' as [Hc _].
  unfold one_or_more. cbn [append]. rewrite Hc.
  change (String c (w ++ rest)) with (String c w ++ rest)%string.
  now rewrite skip_while_all.
Qed.

Lemma skip_while_digits_head digits rest :
  digits <> EmptyString -> all_chars isdigit digits ->
  skip_while isspace (digits ++ rest) = (digits ++ rest)%string.
Proof.
  intros Hne H. destruct digits as [|c d]; [congruence|].
  apply all_chars_cons in H. destruct H as [Hc _].
  simpl. now rewrite (digit_not_space c Hc).
Qed.

(** The pattern on whitespace, label, whitespace, digits: what is left is
    decided by the end of the line. *)
Lemma match_total_rows_marker lead label space digits tail :
  all_chars isspace lead ->
  skip_ignorecase Total_Rows label = Some EmptyString ->
  space <> EmptyString -> all_chars isspace space ->
  digits <> EmptyString -> all_chars isdigit digits ->
  skip_while isdigit tail = tail ->
  match_total_rows (lead ++ marker_line label space digits ++ tail)
  = line_end tail.
Proof.
  intros Hlead Hlabel Hsne Hspace Hdne Hdigits Htail.
  unfold match_total_rows, marker_line.
  rewrite (skip_while_all isspace lead _ Hlead).
  destruct (label_head label Hlabel) as [b [t [-> Hb]]].
  rewrite !append_assoc.
  assert (Hskip : skip_while isspace (String b t ++ space ++ digits ++ tail)
                  = (String b t ++ space ++ digits ++ tail)%string).
  { simpl. now rewrite Hb. }
  rewrite Hskip, (skip_ignorecase_app _ _ _ Hlabel).
  rewrite (one_or_more_all isspace space _ Hsne Hspace).
  rewrite (skip_while_digits_head digits tail Hdne Hdigits).
  rewrite (one_or_more_all isdigit digits _ Hdne Hdigits).
  now rewrite Htail.
Qed.

Lemma line_end_all_space tail :
  all_chars isspace tail -> line_end tail = Some EmptyString.
Proof. intros H. unfold line_end. now rewrite (skip_while_all_nil _ _ H). Qed.

Lemma line_end_next_line c t :
  isspace c = false ->
  line_end (String LF (String c t)) = Some (String LF (String c t)).
Proof.
  intros Hc. unfold line_end.
  change (skip_while isspace (String LF (String c t)))
    with (skip_while isspace (String c t)).
  cbn [skip_while]. rewrite Hc.
  cbn [last_newline_in_space]. rewrite Hc.
  reflexivity.
Qed.

Lemma skip_while_digit_space tail :
  all_chars isspace tail -> skip_while isdigit tail = tail.
Proof.
  destruct tail as [|c t]; [reflexivity|]. intros H.
  apply all_chars_cons in H. destruct H as [Hc _]. simpl.
  destruct (isdigit c) eqn:Hd; [|reflexivity].
  apply digit_not_space in Hd. congruence.
Qed.

(** ** The first substitution *)

Lemma sub_total_rows_skip_all s : forall k bol,
  String.length s <= k -> sub_total_rows k bol s = EmptyString.
Proof.
  induction s as [|c s IH]; intros k bol Hk; [reflexivity|].
  destruct k as [|k]; [simpl in Hk; lia|].
  simpl. apply IH. simpl in Hk. lia.
Qed.

(** X11.  The pattern is not held to one line: a text that is made of the
    label in any case, whitespace and digits, with any whitespace before,
    between and after them, line breaks included, is emptied. *)
Theorem remove_total_rows_line_spans_lines :
  forall (lead label space digits trail : string),
    all_chars isspace lead ->
    skip_ignorecase Total_Rows label = Some EmptyString ->
    space <> EmptyString -> all_chars isspace space ->
    digits <> EmptyString -> all_chars isdigit digits ->
    all_chars isspace trail ->
    remove_total_rows_line (lead ++ marker_line label space digits ++ trail)
    = EmptyString.
Proof.
  intros lead label space digits trail
    Hlead Hlabel Hsne Hspace Hdne Hdigits Htrail.
  unfold remove_total_rows_line. cbv zeta.
  assert (Hmatch : match_total_rows
                     (lead ++ marker_line label space digits ++ trail)
                   = Some EmptyString).
  { rewrite match_total_rows_marker; try assumption.
    - now apply line_end_all_space.
    - now apply skip_while_digit_space. }
  destruct (lead ++ marker_line label space digits ++ trail)%string
    as [|c text] eqn:Htext.
  - reflexivity.
  - rewrite sub_total_rows_cons, Hmatch.
    rewrite sub_total_rows_skip_all; [reflexivity|]. simpl. lia.
Qed.

Lemma remove_total_rows_line_spans_lines_witness :
  remove_total_rows_line
    (NL ++ marker_line "total_ROWS" (" " ++ NL ++ TAB) "2024" ++ NL)
  = EmptyString.
Proof.
  apply (remove_total_rows_line_spans_lines NL "total_ROWS"
           (" " ++ NL ++ TAB) "2024" NL); try reflexivity; discriminate.
Defined.

Lemma append_empty_r s : (s ++ EmptyString)%string = s.
Proof. induction s as [|c s IH]; simpl; [reflexivity | now rewrite IH]. Qed.

Lemma sub_total_rows_skip_line line tail :
  any_char (fun c => Ascii.eqb c LF) line = false ->
  sub_total_rows (String.length line) false (line ++ tail)
  = sub_total_rows 0 false tail.
Proof.
  induction line as [|c line IH]; intros H; [reflexivity|].
  simpl in H. apply orb_false_iff in H. destruct H as [Hc Hline].
  simpl. rewrite Hc. now apply IH.
Qed.

Lemma sub_total_rows_plain line tail :
  any_char (fun c => Ascii.eqb c LF) line = false ->
  sub_total_rows 0 false (line ++ tail)
  = (line ++ sub_total_rows 0 false tail)%string.
Proof.
  induction line as [|c line IH]; intros H; [reflexivity|].
  simpl in H. apply orb_false_iff in H. destruct H as [Hc Hline].
  cbn [append]. rewrite sub_total_rows_cons. rewrite Hc.
  now rewrite (IH Hline).
Qed.

Lemma sub_total_rows_newline tail :
  sub_total_rows 0 false (String LF tail)
  = String LF (sub_total_rows 0 true tail).
Proof. reflexivity. Qed.

Lemma no_LF_of_no_newline s :
  any_char is_newline s = false ->
  any_char (fun c => Ascii.eqb c LF) s = false.
Proof.
  apply any_char_weaken. intros c Hc. unfold is_newline. now rewrite Hc.
Qed.

Lemma no_LF_all_chars q s :
  (forall c, q c = true -> Ascii.eqb c LF = false) ->
  all_chars q s -> any_char (fun c => Ascii.eqb c LF) s = false.
Proof.
  intros Hq. induction s as [|c s IH]; intros H; [reflexivity|].
  apply all_chars_cons in H. destruct H as [Hc Hs].
  simpl. now rewrite (Hq c Hc), (IH Hs).
Qed.

Lemma digit_not_newline c : isdigit c = true -> Ascii.eqb c LF = false.
Proof. intros H. apply not_space_not_newline. now apply digit_not_space. Qed.

Lemma label_no_LF literal : forall label,
  any_char (fun a => Ascii.eqb (lower LF) (lower a)) literal = false ->
  skip_ignorecase literal label = Some EmptyString ->
  any_char (fun c => Ascii.eqb c LF) label = false.
Proof.
  induction literal as [|a literal IH]; intros label Hlit H; simpl in H.
  - inversion H; subst. reflexivity.
  - destruct label as [|b label]; [discriminate|].
    cbn [any_char] in Hlit. apply orb_false_iff in Hlit.
    destruct Hlit as [Ha Hlit].
    destruct (Ascii.eqb (lower b) (lower a)) eqn:Hb; [|discriminate].
    cbn [any_char]. rewrite (IH label Hlit H), orb_false_r.
    destruct (Ascii.eqb b LF) eqn:HLF; [|reflexivity].
    apply Ascii.eqb_eq in HLF. subst b. congruence.
Qed.

Lemma marker_line_no_LF label space digits :
  skip_ignorecase Total_Rows label = Some EmptyString ->
  any_char (fun c => Ascii.eqb c LF) space = false ->
  all_chars isdigit digits ->
  any_char (fun c => Ascii.eqb c LF) (marker_line label space digits) = false.
Proof.
  intros Hlabel Hspace Hdigits. unfold marker_line.
  rewrite !any_char_app, Hspace.
  rewrite (label_no_LF Total_Rows label eq_refl Hlabel).
  now rewrite (no_LF_all_chars isdigit digits digit_not_newline Hdigits).
Qed.

(** A marker line before another line: the line is left out, its line feed
    stays. *)
Lemma sub_total_rows_marker_line label space digits c t :
  skip_ignorecase Total_Rows label = Some EmptyString ->
  space <> EmptyString -> all_chars isspace space ->
  any_char (fun x => Ascii.eqb x LF) space = false ->
  digits <> EmptyString -> all_chars isdigit digits ->
  isspace c = false ->
  sub_total_rows 0 true
    (marker_line label space digits ++ String LF (String c t))
  = String LF (sub_total_rows 0 true (String c t)).
Proof.
  intros Hlabel Hsne Hspace HnoLF Hdne Hdigits Hc.
  pose proof (marker_line_no_LF label space digits Hlabel HnoLF Hdigits)
    as HM.
  assert (Hmatch : match_total_rows
                     (marker_line label space digits
                      ++ String LF (String c t))
                   = Some (String LF (String c t))).
  { rewrite <- (line_end_next_line c t Hc).
    apply (match_total_rows_marker EmptyString); try assumption.
    - reflexivity.
    - reflexivity. }
  destruct (marker_line label space digits) as [|m0 M] eqn:HMeq.
  { unfold marker_line in HMeq.
    destruct (label_head label Hlabel) as [b [t' [-> _]]]. discriminate. }
  cbn [append] in *. rewrite sub_total_rows_cons, Hmatch.
  simpl in HM. apply orb_false_iff in HM. destruct HM as [Hm0 HM].
  rewrite Hm0.
  replace (String.length (String m0 (M ++ String LF (String c t)))
           - String.length (String LF (String c t)) - 1)
    with (String.length M)
    by (simpl; rewrite length_append; simpl; lia).
  rewrite (sub_total_rows_skip_line M _ HM).
  apply sub_total_rows_newline.
Qed.

Lemma skip_ignorecase_line_end literal : forall line tail,
  any_char (fun a => Ascii.eqb (lower LF) (lower a)) literal = false ->
  skip_ignorecase literal line = None ->
  tail = EmptyString \/ (exists t, tail = String LF t) ->
  skip_ignorecase literal (line ++ tail) = None.
Proof.
  induction literal as [|a literal IH]; intros line tail Hlit H Htail;
    cbn [skip_ignorecase] in H; [discriminate|].
  cbn [any_char] in Hlit. apply orb_false_iff in Hlit.
  destruct Hlit as [Ha Hlit].
  destruct line as [|b line].
  - destruct Htail as [-> | [t ->]]; cbn [append skip_ignorecase];
      [reflexivity|].
    now rewrite Ha.
  - cbn [append skip_ignorecase].
    destruct (Ascii.eqb (lower b) (lower a)); [|reflexivity].
    now apply IH.
Qed.

Lemma clean_head line :
  clean line ->
  exists c t, line = String c t /\ isspace c = false.
Proof.
  intros Hclean. destruct (clean_ends line Hclean) as [Hl _].
  destruct Hclean as [Ht _].
  destruct line as [|c t]; [discriminate|].
  exists c, t. split; [reflexivity|].
  simpl in Hl. destruct (isspace c) eqn:Hc; [|reflexivity].
  exfalso. destruct (lstrip_suffix t) as [u Hu].
  apply (f_equal String.length) in Hl. apply (f_equal String.length) in Hu.
  rewrite length_append in Hu. simpl in Hl. lia.
Qed.

(** A plain line, ahead of the end of the text or of a line feed, is
    kept. *)
Lemma sub_total_rows_plain_line line tail :
  plain_line line ->
  tail = EmptyString \/ (exists t, tail = String LF t) ->
  sub_total_rows 0 true (line ++ tail)
  = (line ++ sub_total_rows 0 false tail)%string.
Proof.
  intros [Hclean Hlabel] Htail.
  destruct (clean_head line Hclean) as [c [t [-> Hc]]].
  assert (Hmatch : match_total_rows (String c t ++ tail) = None).
  { unfold match_total_rows.
    assert (Hskip : skip_while isspace (String c t ++ tail)
                    = (String c t ++ tail)%string)
      by (simpl; now rewrite Hc).
    rewrite Hskip.
    now rewrite (skip_ignorecase_line_end Total_Rows (String c t) tail
                   eq_refl Hlabel Htail). }
  pose proof (no_LF_of_no_newline _ (clean_no_newline _ Hclean)) as HnoLF.
  simpl in HnoLF. apply orb_false_iff in HnoLF. destruct HnoLF as [HcLF Ht].
  cbn [append] in *. rewrite sub_total_rows_cons, Hmatch, HcLF.
  now rewrite (sub_total_rows_plain t tail Ht).
Qed.

Lemma join_cons2 x y rest :
  join NL (x :: y :: rest) = (x ++ String LF (join NL (y :: rest)))%string.
Proof. reflexivity. Qed.

Lemma join_clean_head line rest :
  clean line ->
  exists c t, join NL (line :: rest) = String c t /\ isspace c = false.
Proof.
  intros Hclean. destruct (clean_head line Hclean) as [c [t [-> Hc]]].
  destruct rest as [|y rest].
  - now exists c, t.
  - rewrite join_cons2. cbn [append]. now eexists c, _.
Qed.

Lemma sub_total_rows_plain_lines lines :
  lines <> [] -> Forall plain_line lines ->
  sub_total_rows 0 true (join NL lines) = join NL lines.
Proof.
  induction lines as [|x rest IH]; intros Hne Hall; [congruence|].
  inversion Hall as [|? ? Hx Hrest]; subst.
  destruct rest as [|y rest].
  - simpl join. rewrite <- (append_empty_r x) at 1.
    rewrite (sub_total_rows_plain_line x EmptyString Hx (or_introl eq_refl)).
    simpl. apply append_empty_r.
  - rewrite join_cons2.
    rewrite (sub_total_rows_plain_line x _ Hx
               (or_intror (ex_intro _ _ eq_refl))).
    rewrite sub_total_rows_newline.
    rewrite IH; [reflexivity | discriminate | assumption].
Qed.

Section MarkerLine.

Variables (label space digits : string).
Hypothesis Hlabel : skip_ignorecase Total_Rows label = Some EmptyString.
Hypothesis Hsne : space <> EmptyString.
Hypothesis Hspace : all_chars isspace space.
Hypothesis HnoLF : any_char (fun c => Ascii.eqb c LF) space = false.
Hypothesis Hdne : digits <> EmptyString.
Hypothesis Hdigits : all_chars isdigit digits.

Let marker := marker_line label space digits.

(** What the first substitution leaves of the marker line and the lines
    after it. *)
Lemma sub_total_rows_from_marker after :
  Forall plain_line after ->
  sub_total_rows 0 true (join NL (marker :: after))
  = match after with
    | [] => EmptyString
    | _ :: _ => String LF (join NL after)
    end.
Proof.
  intros Hafter. destruct after as [|a rest].
  - simpl join. unfold marker.
    assert (Hmatch : match_total_rows (marker_line label space digits)
                     = Some EmptyString).
    { pose proof (match_total_rows_marker EmptyString label space digits
                    EmptyString eq_refl Hlabel Hsne Hspace Hdne Hdigits
                    eq_refl) as H.
      cbn [append] in H. now rewrite append_empty_r in H. }
    destruct (marker_line label space digits) as [|c text]; [reflexivity|].
    rewrite sub_total_rows_cons, Hmatch.
    apply sub_total_rows_skip_all. simpl. lia.
  - rewrite join_cons2.
    inversion Hafter as [|? ? [Ha _] _]; subst.
    destruct (join_clean_head a rest Ha) as [c [t [Hj Hc]]].
    rewrite Hj. unfold marker.
    rewrite sub_total_rows_marker_line by assumption.
    rewrite <- Hj. f_equal.
    apply sub_total_rows_plain_lines; [discriminate | assumption].
Qed.

Lemma sub_total_rows_around_marker before after :
  before <> [] ->
  Forall plain_line before -> Forall plain_line after ->
  sub_total_rows 0 true (join NL (before ++ marker :: after))
  = (join NL before
     ++ String LF (match after with
                   | [] => EmptyString
                   | _ :: _ => String LF (join NL after)
                   end))%string.
Proof.
  induction before as [|x rest IH]; intros Hne Hbefore Hafter; [congruence|].
  inversion Hbefore as [|? ? Hx Hrest]; subst.
  destruct rest as [|y rest].
  - cbn [app]. rewrite join_cons2.
    rewrite (sub_total_rows_plain_line x _ Hx
               (or_intror (ex_intro _ _ eq_refl))).
    rewrite sub_total_rows_newline.
    now rewrite (sub_total_rows_from_marker after Hafter).
  - change ((x :: y :: rest) ++ marker :: after)
      with (x :: y :: (rest ++ marker :: after)).
    rewrite join_cons2.
    rewrite (sub_total_rows_plain_line x _ Hx
               (or_intror (ex_intro _ _ eq_refl))).
    rewrite sub_total_rows_newline.
    change (y :: rest ++ marker :: after)
      with ((y :: rest) ++ marker :: after).
    rewrite IH; [| discriminate | assumption | assumption].
    rewrite join_cons2. now rewrite !append_assoc.
Qed.

End MarkerLine.

(** ** The second substitution and the strip on joined lines *)

Lemma collapse_newlines_plain line tail :
  any_char (fun c => Ascii.eqb c LF) line = false ->
  collapse_newlines (line ++ tail) = (line ++ collapse_newlines tail)%string.
Proof.
  induction line as [|c line IH]; intros H; [reflexivity|].
  simpl in H. apply orb_false_iff in H. destruct H as [Hc Hline].
  cbn [append]. rewrite collapse_newlines_cons, Hc. cbn [andb].
  now rewrite (IH Hline).
Qed.

Lemma collapse_newlines_break c t :
  isspace c = false ->
  collapse_newlines (String LF (String c t))
  = String LF (collapse_newlines (String c t)).
Proof.
  intros Hc. rewrite collapse_newlines_cons.
  unfold NL. cbn [startswith].
  assert (Hne : Ascii.eqb LF c = false).
  { rewrite Ascii.eqb_sym. now apply not_space_not_newline. }
  now rewrite Hne, andb_false_r.
Qed.

Lemma collapse_newlines_run tail :
  collapse_newlines (String LF (String LF tail))
  = collapse_newlines (String LF tail).
Proof.
  rewrite collapse_newlines_cons. unfold NL. cbn [startswith].
  rewrite !Ascii.eqb_refl. now destruct tail.
Qed.

Lemma collapse_newlines_lines lines : forall tail,
  lines <> [] -> Forall clean lines ->
  collapse_newlines (join NL lines ++ tail)
  = (join NL lines ++ collapse_newlines tail)%string.
Proof.
  induction lines as [|x rest IH]; intros tail Hne Hall; [congruence|].
  inversion Hall as [|? ? Hx Hrest]; subst.
  pose proof (no_LF_of_no_newline _ (clean_no_newline _ Hx)) as HxLF.
  destruct rest as [|y rest].
  - simpl join. now apply collapse_newlines_plain.
  - rewrite join_cons2, append_assoc.
    rewrite (collapse_newlines_plain x _ HxLF). cbn [append].
    inversion Hrest as [|? ? Hy _]; subst.
    destruct (join_clean_head y rest Hy) as [c [t [Hj Hc]]].
    rewrite Hj. cbn [append]. rewrite (collapse_newlines_break c _ Hc).
    change (String c (t ++ tail)) with (String c t ++ tail)%string.
    rewrite <- Hj, IH; [| discriminate | assumption].
    now rewrite !append_assoc.
Qed.

Lemma collapse_newlines_joined lines :
  Forall clean lines -> collapse_newlines (join NL lines) = join NL lines.
Proof.
  intros Hall. destruct lines as [|x rest]; [reflexivity|].
  rewrite <- (append_empty_r (join NL (x :: rest))) at 1.
  rewrite collapse_newlines_lines; [| discriminate | assumption].
  apply append_empty_r.
Qed.

Lemma rstrip_all_space w : all_chars isspace w -> rstrip w = EmptyString.
Proof.
  induction w as [|c w IH]; intros H; [reflexivity|].
  apply all_chars_cons in H. destruct H as [Hc Hw].
  rewrite rstrip_cons, (IH Hw). now rewrite Hc.
Qed.

Lemma rstrip_app_space s w :
  all_chars isspace w -> rstrip (s ++ w) = rstrip s.
Proof.
  intros Hw. induction s as [|c s IH]; cbn [append].
  - now apply rstrip_all_space.
  - now rewrite !rstrip_cons, IH.
Qed.

Lemma rstrip_joined lines :
  lines <> [] -> Forall clean lines -> rstrip (join NL lines) = join NL lines.
Proof.
  induction lines as [|x rest IH]; intros Hne Hall; [congruence|].
  inversion Hall as [|? ? Hx Hrest]; subst.
  destruct rest as [|y rest].
  - simpl join. now apply clean_ends.
  - rewrite join_cons2.
    change (x ++ String LF (join NL (y :: rest)))%string
      with (x ++ NL ++ join NL (y :: rest))%string.
    rewrite <- append_assoc. apply rstrip_app_nonempty.
    + inversion Hrest as [|? ? Hy _]; subst.
      destruct (join_clean_head y rest Hy) as [c [t [Hj _]]].
      rewrite Hj. discriminate.
    + apply IH; [discriminate | assumption].
Qed.

Lemma strip_joined lines :
  Forall clean lines -> strip (join NL lines) = join NL lines.
Proof.
  intros Hall. destruct lines as [|x rest]; [reflexivity|].
  inversion Hall as [|? ? Hx _]; subst. unfold strip.
  destruct (join_clean_head x rest Hx) as [c [t [Hj Hc]]].
  assert (Hl : lstrip (join NL (x :: rest)) = join NL (x :: rest)).
  { rewrite Hj. simpl. now rewrite Hc. }
  rewrite Hl. apply rstrip_joined; [discriminate | assumption].
Qed.

Lemma join_app_lines xs ys :
  xs <> [] -> ys <> [] ->
  join NL (xs ++ ys) = (join NL xs ++ String LF (join NL ys))%string.
Proof.
  induction xs as [|x rest IH]; intros Hx Hy; [congruence|].
  destruct rest as [|x' rest].
  - destruct ys as [|y ys]; [congruence|]. reflexivity.
  - change ((x :: x' :: rest) ++ ys) with (x :: x' :: (rest ++ ys)).
    rewrite !join_cons2.
    change (x' :: rest ++ ys) with ((x' :: rest) ++ ys).
    rewrite IH; [| discriminate | assumption].
    now rewrite append_assoc.
Qed.

Lemma plain_lines_clean lines : Forall plain_line lines -> Forall clean lines.
Proof. apply Forall_impl. now intros line [H _]. Qed.

(** X12.  Among lines that are non-empty, stripped and do not start with
    the label, a line made of the label in any case, whitespace without
    line feed and digits is removed together with its line break, and the
    other lines are returned unchanged, joined by line feeds. *)
Theorem remove_total_rows_line_removes_marker :
  forall (before after : list string) (label space digits : string),
    Forall plain_line before ->
    Forall plain_line after ->
    skip_ignorecase Total_Rows label = Some EmptyString ->
    space <> EmptyString ->
    all_chars isspace space ->
    any_char (fun c => Ascii.eqb c LF) space = false ->
    digits <> EmptyString ->
    all_chars isdigit digits ->
    remove_total_rows_line
      (join NL (before ++ marker_line label space digits :: after))
    = join NL (before ++ after).
Proof.
  intros before after label space digits
    Hbefore Hafter Hlabel Hsne Hspace HnoLF Hdne Hdigits.
  pose proof (plain_lines_clean _ Hbefore) as Hcb.
  pose proof (plain_lines_clean _ Hafter) as Hca.
  unfold remove_total_rows_line. cbv zeta.
  destruct before as [|x before].
  - cbn [app].
    rewrite (sub_total_rows_from_marker label space digits
               Hlabel Hsne Hspace HnoLF Hdne Hdigits after Hafter).
    destruct after as [|a rest]; [reflexivity|].
    inversion Hca as [|? ? Ha _]; subst.
    destruct (join_clean_head a rest Ha) as [c [t [Hj Hc]]].
    rewrite Hj, (collapse_newlines_break c t Hc), <- Hj.
    rewrite (collapse_newlines_joined _ Hca).
    unfold strip. change (lstrip (String LF (join NL (a :: rest))))
      with (lstrip (join NL (a :: rest))).
    apply (strip_joined _ Hca).
  - rewrite (sub_total_rows_around_marker label space digits
               Hlabel Hsne Hspace HnoLF Hdne Hdigits
               (x :: before) after ltac:(discriminate) Hbefore Hafter).
    rewrite collapse_newlines_lines; [| discriminate | assumption].
    destruct after as [|a rest].
    + rewrite app_nil_r.
      change (collapse_newlines (String LF EmptyString)) with NL.
      unfold strip.
      inversion Hcb as [|? ? Hx _]; subst.
      destruct (join_clean_head x before Hx) as [c [t [Hj Hc]]].
      assert (Hl : lstrip (join NL (x :: before) ++ NL)
                   = (join NL (x :: before) ++ NL)%string).
      { rewrite Hj. simpl. now rewrite Hc. }
      rewrite Hl, rstrip_app_space by reflexivity.
      apply rstrip_joined; [discriminate | assumption].
    + rewrite collapse_newlines_run.
      inversion Hca as [|? ? Ha _]; subst.
      destruct (join_clean_head a rest Ha) as [c [t [Hj Hc]]].
      rewrite Hj, (collapse_newlines_break c t Hc), <- Hj.
      rewrite (collapse_newlines_joined _ Hca).
      rewrite <- join_app_lines by discriminate.
      apply strip_joined. apply Forall_app. now split.
Qed.

Lemma remove_total_rows_line_removes_marker_witness :
  remove_total_rows_line scenario_A
  = join NL [("H1" ++ TAB ++ "H2")%string; ("a" ++ TAB ++ "b")%string;
             ("H3" ++ TAB ++ "H4")%string; ("c" ++ TAB ++ "d")%string].
Proof.
  apply (remove_total_rows_line_removes_marker
           [("H1" ++ TAB ++ "H2")%string; ("a" ++ TAB ++ "b")%string]
           [("H3" ++ TAB ++ "H4")%string; ("c" ++ TAB ++ "d")%string]
           "Total_Rows" TAB "2");
    try reflexivity; try discriminate;
    repeat constructor.
Defined.

(** * The functions of apple_csv_handler.py on a path *)

Section FileOutcomes.

Context {P : Pandas}.
Variable path_exists : string -> bool.
Variable splitext_ext : string -> string.

Section OnContent.

Variable read_text : string -> result string.

(** X13.  On a path [read_csv_into_parts] returns exactly what it returns
    on the content of the file, provided the path exists, its extension is
    .csv or .txt in any case and the file can be read; it raises
    FileNotFoundError exactly when the path does not exist, and nothing
    but that and ValueError. *)
Theorem read_csv_into_parts_path_outcomes :
  forall (file_path : string),
    (forall r,
        read_csv_into_parts_path path_exists splitext_ext read_text file_path
        = Ok r
        <-> (path_exists file_path = true
             /\ supported_ext (str_lower (splitext_ext file_path)) = true
             /\ exists content, read_text file_path = Ok content
                                /\ read_csv_into_parts content = Ok r))
    /\ (read_csv_into_parts_path path_exists splitext_ext read_text file_path
        = Raise FileNotFoundError
        <-> path_exists file_path = false)
    /\ (forall e,
           read_csv_into_parts_path path_exists splitext_ext read_text
             file_path = Raise e ->
           e = FileNotFoundError \/ e = ValueError).
Proof.
  intros file_path. unfold read_csv_into_parts_path, read_csv_into_parts.
  cbv zeta.
  destruct (path_exists file_path);
    destruct (supported_ext (str_lower (splitext_ext file_path)));
    cbn [negb];
    try (split; [|split];
         [ intros r; split;
           [discriminate | intros [H1 [H2 _]]; discriminate]
         | split; first [reflexivity | discriminate | intros H; discriminate H]
         | intros e H; inversion H; tauto ]).
  destruct (read_text file_path) as [content|e0]; cbn [bind try_except].
  - split; [|split].
    + intros r. split.
      * intros H. repeat split. exists content. now split.
      * intros [_ [_ [content' [Hc H]]]]. inversion Hc; subst. exact H.
    + split; [|discriminate].
      destruct (read_csv_into_parts_body content); discriminate.
    + intros e. destruct (read_csv_into_parts_body content);
        cbn [try_except]; intros H; inversion H; tauto.
  - split; [|split].
    + intros r. split; [discriminate|].
      intros [_ [_ [content [Hc _]]]]. discriminate Hc.
    + split; discriminate.
    + intros e H. inversion H. tauto.
Qed.

End OnContent.

Section OnFrame.

Variable read_csv_path : option string -> string -> result DataFrame.

(** X14.  [read_csv_or_txt_file] returns the frame of the first of its
    three reads (default separator, tab, comma) that does not raise,
    provided the path exists with extension .csv or .txt in any case; it
    raises FileNotFoundError exactly when the path does not exist, and
    nothing but that and ValueError. *)
Theorem read_csv_or_txt_file_outcomes :
  forall (file_path : string),
    let raises (sep : option string) :=
      exists e, read_csv_path sep file_path = Raise e in
    (forall df,
        read_csv_or_txt_file path_exists splitext_ext read_csv_path file_path
        = Ok df
        <-> (path_exists file_path = true
             /\ supported_ext (str_lower (splitext_ext file_path)) = true
             /\ (read_csv_path None file_path = Ok df
                 \/ (raises None
                     /\ read_csv_path (Some TAB) file_path = Ok df)
                 \/ (raises None /\ raises (Some TAB)
                     /\ read_csv_path (Some ","%string) file_path = Ok df))))
    /\ (read_csv_or_txt_file path_exists splitext_ext read_csv_path file_path
        = Raise FileNotFoundError
        <-> path_exists file_path = false)
    /\ (forall e,
           read_csv_or_txt_file path_exists splitext_ext read_csv_path
             file_path = Raise e ->
           e = FileNotFoundError \/ e = ValueError).
Proof.
  intros file_path raises. unfold read_csv_or_txt_file. cbv zeta.
  destruct (path_exists file_path);
    destruct (supported_ext (str_lower (splitext_ext file_path)));
    cbn [negb];
    try (split; [|split];
         [ intros r; split;
           [discriminate | intros [H1 [H2 _]]; discriminate]
         | split; first [reflexivity | discriminate | intros H; discriminate H]
         | intros e H; inversion H; tauto ]).
  subst raises. cbv beta.
  destruct (read_csv_path None file_path) as [d1|e1];
    [|destruct (read_csv_path (Some TAB) file_path) as [d2|e2];
      [|destruct (read_csv_path (Some ","%string) file_path) as [d3|e3]]];
    cbn [try_except]; (split; [|split]);
    try (split; discriminate);
    try (intros e H; inversion H; tauto).
  - intros df. split.
    + intros H. repeat split. now left.
    + intros [_ [_ [H | [[[e He] _] | [[e He] _]]]]];
        [exact H | discriminate He | discriminate He].
  - intros df. split.
    + intros H. repeat split. right. left. split; [now exists e1 | exact H].
    + intros [_ [_ [H | [[_ H] | [_ [[e He] _]]]]]];
        [discriminate H | exact H | discriminate He].
  - intros df. split.
    + intros H. repeat split. right. right.
      split; [now exists e1|]. split; [now exists e2 | exact H].
    + intros [_ [_ [H | [[_ H] | [_ [_ H]]]]]];
        [discriminate H | discriminate H | exact H].
  - intros df. split; [discriminate|].
    intros [_ [_ [H | [[_ H] | [_ [_ H]]]]]]; discriminate H.
Qed.

End OnFrame.

End FileOutcomes.

(** * calculate_hash *)

Lemma contains_cons c s kw :
  contains (String c s) kw = startswith (String c s) kw || contains s kw.
Proof. reflexivity. Qed.

Lemma no_bar_no_separator s :
  any_char (Ascii.eqb "|"%char) s = false -> contains s "|||" = false.
Proof.
  induction s as [|c s IH]; intros H; [reflexivity|].
  cbn [any_char] in H. apply orb_false_iff in H. destruct H as [Hc Hs].
  rewrite contains_cons, (IH Hs), orb_false_r.
  cbn [startswith]. now rewrite Hc.
Qed.

Lemma no_bar_then_bar s :
  any_char (Ascii.eqb "|"%char) s = false ->
  contains (s ++ "|") "|||" = false.
Proof.
  induction s as [|c s IH]; intros H; [reflexivity|].
  cbn [any_char] in H. apply orb_false_iff in H. destruct H as [Hc Hs].
  cbn [append]. rewrite contains_cons, (IH Hs), orb_false_r.
  cbn [startswith]. now rewrite Hc.
Qed.

Lemma bars_then_no_bar s :
  any_char (Ascii.eqb "|"%char) s = false ->
  contains ("||" ++ s) "|||" = false /\ contains ("|" ++ s) "|||" = false.
Proof.
  intros H. pose proof (no_bar_no_separator s H) as Hs.
  destruct s as [|c s].
  - split; reflexivity.
  - cbn [any_char] in H. apply orb_false_iff in H. destruct H as [Hc _].
    cbn [append]. split.
    + rewrite (contains_cons "|" (String "|" (String c s))),
        (contains_cons "|" (String c s)), Hs.
      cbn [startswith]. rewrite Hc. reflexivity.
    + rewrite (contains_cons "|" (String c s)), Hs.
      cbn [startswith]. rewrite Hc. reflexivity.
Qed.

Section RowHashCollisions.

Variable cell : Type.
Variable isna : cell -> bool.
Variable to_str : cell -> string.
Variable hexdigest : string -> string -> string.

(** X15.  The separator does not keep rows apart: with two target columns
    and the separator '|||', the values x| and |y give the same hash as
    the values x and ||y, whatever the algorithm, although the rows differ
    and, when x and y hold no bar, none of the four values contains the
    separator. *)
Theorem calculate_hash_separator_collision :
  forall (hash_algorithm col1 col2 x y : string) (row1 row2 : string -> cell),
    isna (row1 col1) = false -> isna (row1 col2) = false ->
    isna (row2 col1) = false -> isna (row2 col2) = false ->
    to_str (row1 col1) = (x ++ "|")%string ->
    to_str (row1 col2) = ("|" ++ y)%string ->
    to_str (row2 col1) = x ->
    to_str (row2 col2) = ("||" ++ y)%string ->
    calculate_hash cell isna to_str hexdigest [col1; col2] "|||" hash_algorithm row1
    = calculate_hash cell isna to_str hexdigest [col1; col2] "|||" hash_algorithm
        row2
    /\ to_str (row1 col1) <> to_str (row2 col1)
    /\ (any_char (Ascii.eqb "|"%char) x = false ->
        any_char (Ascii.eqb "|"%char) y = false ->
        contains (to_str (row1 col1)) "|||" = false
        /\ contains (to_str (row1 col2)) "|||" = false
        /\ contains (to_str (row2 col1)) "|||" = false
        /\ contains (to_str (row2 col2)) "|||" = false).
Proof.
  intros alg col1 col2 x y row1 row2 N11 N12 N21 N22 S11 S12 S21 S22.
  split; [|split].
  - unfold calculate_hash. cbv zeta. cbn [map].
    rewrite N11, N12, N21, N22, S11, S12, S21, S22.
    f_equal. unfold join. cbn [String.concat].
    rewrite !append_assoc. reflexivity.
  - rewrite S11, S21. intros H.
    apply (f_equal String.length) in H. rewrite length_append in H.
    simpl in H. lia.
  - intros Hx Hy. rewrite S11, S12, S21, S22.
    destruct (bars_then_no_bar y Hy) as [H2 H1].
    repeat split.
    + now apply no_bar_then_bar.
    + exact H1.
    + now apply no_bar_no_separator.
    + exact H2.
Qed.

(** X16.  A missing value and a value whose text is 'NaN' are hashed
    alike: rows that differ only in that, on the target columns, get the
    same hash. *)
Theorem calculate_hash_missing_as_text :
  forall (target_cols : list string) (sep hash_algorithm : string)
         (row1 row2 : string -> cell),
    (forall col, In col target_cols ->
                 row1 col = row2 col
                 \/ (isna (row1 col) = true /\ isna (row2 col) = false
                     /\ to_str (row2 col) = "NaN"%string)) ->
    calculate_hash cell isna to_str hexdigest target_cols sep hash_algorithm row1
    = calculate_hash cell isna to_str hexdigest target_cols sep hash_algorithm row2.
Proof.
  intros target_cols sep alg row1 row2 H. unfold calculate_hash. cbv zeta.
  f_equal. f_equal. apply map_ext_in. intros col Hin.
  destruct (H col Hin) as [-> | [H1 [H2 H3]]]; [reflexivity|].
  now rewrite H1, H2, H3.
Qed.

End RowHashCollisions.

Lemma read_csv_into_parts_path_outcomes_witness :
  read_csv_into_parts_path (P := SpecTables)
    (fun path => String.eqb path "report.CSV")
    (fun _ => ".CSV"%string)
    (fun _ => Ok scenario_B) "missing.csv"
  = Raise FileNotFoundError
  /\ read_csv_into_parts_path (P := SpecTables)
       (fun path => String.eqb path "report.CSV")
       (fun _ => ".CSV"%string)
       (fun _ => Ok scenario_B) "report.CSV"
     = read_csv_into_parts (P := SpecTables) scenario_B.
Proof.
  split.
  - exact (proj2 (proj1 (proj2
             (read_csv_into_parts_path_outcomes (P := SpecTables)
                (fun path => String.eqb path "report.CSV")
                (fun _ => ".CSV"%string)
                (fun _ => Ok scenario_B) "missing.csv"))) eq_refl).
  - destruct (read_csv_into_parts (P := SpecTables) scenario_B)
      as [r|e] eqn:E.
    + apply (proj1 (read_csv_into_parts_path_outcomes (P := SpecTables)
                      (fun path => String.eqb path "report.CSV")
                      (fun _ => ".CSV"%string)
                      (fun _ => Ok scenario_B) "report.CSV")).
      split; [reflexivity|]. split; [reflexivity|].
      exists scenario_B. split; [reflexivity | exact E].
    + vm_compute in E. discriminate E.
Defined.

Lemma read_csv_or_txt_file_outcomes_witness :
  read_csv_or_txt_file (P := SpecTables)
    (fun _ => true) (fun _ => ".TXT"%string)
    (fun sep _ => match sep with
                  | Some _ => read_table scenario_B
                  | None => Raise ParserError
                  end) "report.TXT"
  = read_table scenario_B.
Proof.
  apply (proj1 (read_csv_or_txt_file_outcomes (P := SpecTables)
                  (fun _ => true) (fun _ => ".TXT"%string)
                  (fun sep _ => match sep with
                                | Some _ => read_table scenario_B
                                | None => Raise ParserError
                                end) "report.TXT")).
  split; [reflexivity|]. split; [reflexivity|].
  right. left. split; [now exists ParserError | reflexivity].
Defined.

Lemma calculate_hash_separator_collision_witness :
  calculate_hash string (fun _ : string => false) (fun v => v) (fun _ text => text)
    ["name"; "city"]%string "|||" "md5"
    (fun col => if String.eqb col "name" then "a|" else "|b")%string
  = calculate_hash string (fun _ : string => false) (fun v => v) (fun _ text => text)
      ["name"; "city"]%string "|||" "md5"
      (fun col => if String.eqb col "name" then "a" else "||b")%string.
Proof.
  exact (proj1 (calculate_hash_separator_collision string
                  (fun _ : string => false) (fun v => v) (fun _ text => text)
                  "md5" "name" "city" "a" "b"
                  (fun col => if String.eqb col "name" then "a|" else "|b")%string
                  (fun col => if String.eqb col "name" then "a" else "||b")%string
                  eq_refl eq_refl eq_refl eq_refl
                  eq_refl eq_refl eq_refl eq_refl)).
Defined.

Lemma calculate_hash_missing_as_text_witness :
  calculate_hash (option string) (fun v : option string => match v with None => true | _ => false end)
    (fun v => match v with Some t => t | None => "None"%string end)
    (fun _ text => text) ["name"]%string "|||" "md5" (fun _ => None)
  = calculate_hash (option string) (fun v : option string => match v with None => true | _ => false end)
      (fun v => match v with Some t => t | None => "None"%string end)
      (fun _ text => text) ["name"]%string "|||" "md5"
      (fun _ => Some "NaN"%string).
Proof.
  apply calculate_hash_missing_as_text.
  intros col _. right. repeat split.
Defined.
